(** * mboxctl: the control client of the mailbox daemon

    A shallow embedding of [mboxctl.c]: the error taxonomy [parse_error],
    the RPC exchange [send_dbus_msg], the six command handlers, the
    dispatch loop [parse_cmdline] and [main], followed by the properties
    the specification states about them.

    The program talks to three things outside itself: the sd-bus library
    (and, behind it, the daemon), the two output streams, and the C
    runtime ([exit], [strerror], [getopt_long]).  They are modelled as
    follows.

    - sd-bus is a record of operations over an arbitrary state [D]; every
      operation returns the [int] the C function returns and the next
      state.  All results are universally quantified: nothing is assumed
      about what the bus answers.
    - [stdout] and [stderr] are the texts written so far.
    - [exit] ends the computation with a status; [main] returning [rc]
      ends it with [rc].  The value is the [int] handed to the C runtime.
    - [getopt_long] is represented by the sequence of values it returns
      before [-1], each with the [optarg] it leaves behind.
    - Buffers are values: [calloc] yields a zeroed buffer and [free] has
      no counterpart.  What the process holds of the bus (its connection
      and its messages) is counted in the world. *)

From Stdlib Require Import ZArith List String Ascii Bool Lia.
From Stdlib.Strings Require Import Byte.
Import ListNotations.

Local Open Scope string_scope.
Local Open Scope Z_scope.

(** ** Bytes and C strings *)

(** [uint8_t], and its promotion to [int]. *)
Definition uint8_t := byte.

Definition u8 (b : uint8_t) : Z := Z.of_N (Byte.to_N b).

(** Conversion of an [int] to [uint8_t]: reduction modulo 256. *)
Definition to_u8 (z : Z) : uint8_t :=
  match Byte.of_N (Z.to_N (z mod 256)) with
  | Some b => b
  | None => x00
  end.

Definition nl : string := String "010" EmptyString.
Definition tab : string := String "009" EmptyString.

(** [*s] for a NUL-terminated string: its first character, or the
    terminator when the string is empty. *)
Definition deref (s : string) : ascii :=
  match s with
  | EmptyString => "000"%char
  | String c _ => c
  end.

(** [memcpy(dst, src, n)] on buffer contents: the first [n] bytes of
    [dst] are replaced by the first [n] bytes of [src]. *)
Definition memcpy (dst src : list uint8_t) (n : nat) : list uint8_t :=
  (firstn n src ++ skipn n dst)%list.

(** [calloc(n, 1)]: a zeroed buffer of [n] bytes. *)
Definition calloc (n : nat) : list uint8_t := repeat x00 n.

(** Substring test, used to say that a text was printed. *)
Fixpoint contains (needle hay : string) : bool :=
  if prefix needle hay then true
  else match hay with
       | EmptyString => false
       | String _ rest => contains needle rest
       end.

(** ** mbox_dbus.h *)

(** The header is not part of the sources at hand; the program only uses
    the constants below, which are therefore parameters of the model. *)
Class mbox_dbus_h := {
  DBUS_C_PING : Z;
  DBUS_C_STATUS : Z;
  DBUS_C_RESET : Z;
  DBUS_C_SUSPEND : Z;
  DBUS_C_RESUME : Z;
  DBUS_C_MODIFIED : Z;
  DBUS_SUCCESS : Z;
  E_DBUS_INTERNAL : Z;
  E_DBUS_INVAL : Z;
  E_DBUS_REJECTED : Z;
  E_DBUS_HARDWARE : Z;
  STATUS_ACTIVE : Z;
  RESUME_NOT_MODIFIED : Z;
  RESUME_FLASH_MODIFIED : Z
}.

(** [struct mbox_dbus_msg].  [args] holds the contents of the buffer the
    pointer refers to; the null pointer is the empty buffer. *)
Record mbox_dbus_msg := mk_msg {
  cmd : uint8_t;
  num_args : nat;
  args : list uint8_t
}.

(** [= { 0 }] *)
Definition msg_zero : mbox_dbus_msg := mk_msg x00 0 [].

Definition set_cmd (c : uint8_t) (m : mbox_dbus_msg) : mbox_dbus_msg :=
  mk_msg c (num_args m) (args m).

Definition set_args (a : list uint8_t) (m : mbox_dbus_msg) : mbox_dbus_msg :=
  mk_msg (cmd m) (num_args m) a.

(** ** sd-bus *)

(** A reply message, as far as the client looks at it: what reading one
    byte ([sd_bus_message_read] with signature "y") returns, and what
    reading a byte array ([sd_bus_message_read_array]) returns.  The
    value next to a negative code is never looked at. *)
Record sd_bus_message := mk_reply {
  read_y : Z * uint8_t;
  read_ay : Z * list uint8_t
}.

(** The operations of the bus the client calls.  [D] is the state of
    everything behind the library, the daemon included. *)
Record sd_bus (D : Type) := mk_bus {
  sd_bus_default_system : D -> Z * D;
  sd_bus_message_new_method_call : D -> Z * D;
  sd_bus_message_append : uint8_t -> D -> Z * D;
  sd_bus_message_append_array : list uint8_t -> D -> Z * D;
  sd_bus_call : uint8_t -> list uint8_t -> D -> Z * sd_bus_message * D
}.

Arguments sd_bus_default_system {D}.
Arguments sd_bus_message_new_method_call {D}.
Arguments sd_bus_message_append {D}.
Arguments sd_bus_message_append_array {D}.
Arguments sd_bus_call {D}.

(** ** The world and the monad of the program *)

(** [calls] lists the requests handed to [sd_bus_call], oldest first.
    [bus_refs] counts the bus connections the process holds, [msg_refs]
    the bus messages it holds. *)
Record world (D : Type) := mk_world {
  daemon : D;
  stdout : string;
  stderr : string;
  calls : list (uint8_t * list uint8_t);
  bus_refs : nat;
  msg_refs : nat
}.

Arguments mk_world {D}.
Arguments daemon {D}.
Arguments stdout {D}.
Arguments stderr {D}.
Arguments calls {D}.
Arguments bus_refs {D}.
Arguments msg_refs {D}.

(** A computation either yields a value or has called [exit]. *)
Inductive outcome (A : Type) : Type :=
| Return (a : A)
| Exit (status : Z).

Arguments Return {A}.
Arguments Exit {A}.

Definition M (D A : Type) : Type := world D -> outcome A * world D.

Definition ret {D A} (a : A) : M D A := fun w => (Return a, w).

Definition bind {D A B} (c : M D A) (k : A -> M D B) : M D B :=
  fun w =>
    match c w with
    | (Return a, w') => k a w'
    | (Exit s, w') => (Exit s, w')
    end.

Declare Scope prog_scope.
Delimit Scope prog_scope with prog.

Notation "x <- c ;; k" := (bind c (fun x => k))
  (at level 61, c at next level, right associativity) : prog_scope.
Notation "' p <- c ;; k" := (bind c (fun x => match x with p => k end))
  (at level 61, p pattern, c at next level, right associativity) : prog_scope.
Notation "c ;; k" := (bind c (fun _ => k))
  (at level 61, right associativity) : prog_scope.

Local Open Scope prog_scope.

(** [exit(status)] *)
Definition exit {D A} (status : Z) : M D A := fun w => (Exit status, w).

(** [printf]: the formatted text is appended to the standard output. *)
Definition printf {D} (s : string) : M D unit :=
  fun w => (Return tt,
            mk_world (daemon w) (stdout w ++ s) (stderr w) (calls w)
                     (bus_refs w) (msg_refs w)).

(** [fprintf(stderr, ...)] *)
Definition eprintf {D} (s : string) : M D unit :=
  fun w => (Return tt,
            mk_world (daemon w) (stdout w) (stderr w ++ s) (calls w)
                     (bus_refs w) (msg_refs w)).

(** Between [w] and [w'] a text containing [phrase] was written to the
    standard output. *)
Definition prints {D} (w w' : world D) (phrase : string) : Prop :=
  exists out, stdout w' = stdout w ++ out /\ contains phrase out = true.

(** The value with which the process ends: the argument of [exit], or
    what [main] returned. *)
Definition exit_code {D} (r : outcome Z * world D) : Z :=
  match fst r with
  | Return rc => rc
  | Exit status => status
  end.

(** The two reads the client performs on a reply: the first negative
    code if one fails, the status byte and the argument bytes
    otherwise. *)
Definition read_reply (n : sd_bus_message) : Z + uint8_t * list uint8_t :=
  let (rc, c) := read_y n in
  if rc <? 0 then inl rc else
  let (rc, buf) := read_ay n in
  if rc <? 0 then inl rc else inr (c, buf).

Section Mboxctl.

Context {hdr : mbox_dbus_h} {D : Type}.
Variable bus : sd_bus D.
Variable strerror : Z -> string.

(** *** The bus operations as computations *)

(** [sd_bus_default_system(&context->bus)]: on success the process holds
    one more reference to a bus connection. *)
Definition bus_default_system : M D Z :=
  fun w =>
    let (rc, d) := sd_bus_default_system bus (daemon w) in
    (Return rc,
     mk_world d (stdout w) (stderr w) (calls w)
              (if rc <? 0 then bus_refs w else S (bus_refs w)) (msg_refs w)).

(** [sd_bus_message_new_method_call(bus, &m, ...)]: returns the code and
    whether [m] now refers to a message. *)
Definition message_new_method_call : M D (Z * bool) :=
  fun w =>
    let (rc, d) := sd_bus_message_new_method_call bus (daemon w) in
    (Return (rc, negb (rc <? 0)),
     mk_world d (stdout w) (stderr w) (calls w) (bus_refs w)
              (if rc <? 0 then msg_refs w else S (msg_refs w))).

(** [sd_bus_message_append(m, "y", c)] *)
Definition message_append (c : uint8_t) : M D Z :=
  fun w =>
    let (rc, d) := sd_bus_message_append bus c (daemon w) in
    (Return rc,
     mk_world d (stdout w) (stderr w) (calls w) (bus_refs w) (msg_refs w)).

(** [sd_bus_message_append_array(m, 'y', a, n)] *)
Definition message_append_array (a : list uint8_t) : M D Z :=
  fun w =>
    let (rc, d) := sd_bus_message_append_array bus a (daemon w) in
    (Return rc,
     mk_world d (stdout w) (stderr w) (calls w) (bus_refs w) (msg_refs w)).

(** [sd_bus_call(bus, m, 0, &error, &n)], where [m] carries the command
    byte [c] and the argument bytes [a].  The request is recorded; on
    success [n] refers to the reply. *)
Definition bus_call (c : uint8_t) (a : list uint8_t)
  : M D (Z * option sd_bus_message) :=
  fun w =>
    let '(rc, n, d) := sd_bus_call bus c a (daemon w) in
    (Return (rc, if rc <? 0 then None else Some n),
     mk_world d (stdout w) (stderr w) (calls w ++ [(c, a)])%list (bus_refs w)
              (if rc <? 0 then msg_refs w else S (msg_refs w))).

(** [sd_bus_message_unref(m)]: nothing for the null pointer. *)
Definition message_unref (held : bool) : M D unit :=
  fun w =>
    (Return tt,
     mk_world (daemon w) (stdout w) (stderr w) (calls w) (bus_refs w)
              (if held then pred (msg_refs w) else msg_refs w)).

(** *** parse_error *)

Definition parse_error (error_val : Z) : string :=
  if error_val =? DBUS_SUCCESS then "Success"
  else if error_val =? E_DBUS_INTERNAL then "Failed - Internal Error"
  else if error_val =? E_DBUS_INVAL then "Failed - Invalid Command or Request"
  else if error_val =? E_DBUS_REJECTED then "Failed - Request Rejected by Daemon"
  else if error_val =? E_DBUS_HARDWARE then "Failed - BMC Hardware Error"
  else "Failed - Unknown Error".

(** *** init_dbus_dev *)

Definition init_dbus_dev : M D Z :=
  rc <- bus_default_system ;;
  (if rc <? 0
   then eprintf ("Failed to connect to the system bus: "
                 ++ strerror (- rc) ++ nl)
   else ret tt) ;;
  ret rc.

(** *** send_dbus_msg *)

(** The function up to the label [out].  The result is [rc], the
    response structure, and whether [m] and [n] refer to messages.
    After [sd_bus_call], [n] is null exactly when [rc] is negative. *)
Definition send_dbus_msg_body (msg resp : mbox_dbus_msg)
  : M D (Z * mbox_dbus_msg * bool * bool) :=
  '(rc, m) <- message_new_method_call ;;
  if rc <? 0 then
    eprintf ("Failed to init method call: " ++ strerror (- rc) ++ nl) ;;
    ret (rc, resp, m, false)
  else
  rc <- message_append (cmd msg) ;;
  if rc <? 0 then
    eprintf ("Failed to add cmd to message: " ++ strerror (- rc) ++ nl) ;;
    ret (rc, resp, m, false)
  else
  rc <- message_append_array (firstn (num_args msg) (args msg)) ;;
  if rc <? 0 then
    eprintf ("Failed to add args to message: " ++ strerror (- rc) ++ nl) ;;
    ret (rc, resp, m, false)
  else
  '(rc, n) <- bus_call (cmd msg) (firstn (num_args msg) (args msg)) ;;
  match n with
  | None =>
    eprintf ("Failed to post message: " ++ strerror (- rc) ++ nl) ;;
    ret (rc, resp, m, false)
  | Some n =>
  let (rc, c) := read_y n in
  if rc <? 0 then
    eprintf ("Failed to read response code: " ++ strerror (- rc) ++ nl) ;;
    ret (rc, resp, m, true)
  else
  let resp := set_cmd c resp in
  let (rc, buf) := read_ay n in
  if rc <? 0 then
    eprintf ("Failed to read response args: " ++ strerror (- rc) ++ nl) ;;
    ret (rc, resp, m, true)
  else
  if (List.length buf <? num_args resp)%nat then
    eprintf ("Command returned insufficient response args" ++ nl) ;;
    ret (- E_DBUS_INTERNAL, resp, m, true)
  else
    ret (0, set_args (memcpy (args resp) buf (num_args resp)) resp, m, true)
  end.

(** From [out] on: both messages are released ([sd_bus_error_free] acts
    on a local structure only) and [rc] is returned. *)
Definition send_dbus_msg (msg resp : mbox_dbus_msg)
  : M D (Z * mbox_dbus_msg) :=
  '(rc, resp, m, n) <- send_dbus_msg_body msg resp ;;
  message_unref m ;;
  message_unref n ;;
  ret (rc, resp).

(** *** The command handlers *)

Definition handle_cmd_ping : M D Z :=
  let msg := set_cmd (to_u8 DBUS_C_PING) msg_zero in
  let resp := msg_zero in
  '(rc, resp) <- send_dbus_msg msg resp ;;
  if rc <? 0 then
    eprintf ("Failed to send ping command" ++ nl) ;;
    ret rc
  else
    let rc := - u8 (cmd resp) in
    printf ("Ping: " ++ parse_error (u8 (cmd resp)) ++ nl) ;;
    ret rc.

Definition handle_cmd_status : M D Z :=
  let msg := set_cmd (to_u8 DBUS_C_STATUS) msg_zero in
  let resp := mk_msg x00 1 (calloc 1) in
  '(rc, resp) <- send_dbus_msg msg resp ;;
  if rc <? 0 then
    eprintf ("Failed to send status command" ++ nl) ;;
    ret rc
  else
    let rc := - u8 (cmd resp) in
    if negb (u8 (cmd resp) =? DBUS_SUCCESS) then
      eprintf ("Status command failed" ++ nl) ;;
      ret rc
    else
      printf ("Daemon Status: "
              ++ (if u8 (nth 0 (args resp) x00) =? STATUS_ACTIVE
                  then "Active" else "Suspended")
              ++ nl) ;;
      ret rc.

Definition handle_cmd_reset : M D Z :=
  let msg := set_cmd (to_u8 DBUS_C_RESET) msg_zero in
  let resp := msg_zero in
  '(rc, resp) <- send_dbus_msg msg resp ;;
  if rc <? 0 then
    eprintf ("Failed to send reset command" ++ nl) ;;
    ret rc
  else
    let rc := - u8 (cmd resp) in
    printf ("Reset: " ++ parse_error (u8 (cmd resp)) ++ nl) ;;
    ret rc.

Definition handle_cmd_suspend : M D Z :=
  let msg := set_cmd (to_u8 DBUS_C_SUSPEND) msg_zero in
  let resp := msg_zero in
  '(rc, resp) <- send_dbus_msg msg resp ;;
  if rc <? 0 then
    eprintf ("Failed to send suspend command" ++ nl) ;;
    ret rc
  else
    let rc := - u8 (cmd resp) in
    printf ("Suspend: " ++ parse_error (u8 (cmd resp)) ++ nl) ;;
    ret rc.

(** The test [!arg || *arg != '0' || *arg != '1'], evaluated left to
    right; [None] is the null pointer. *)
Definition resume_arg_rejected (arg : option string) : bool :=
  match arg with
  | None => true
  | Some s =>
    negb (deref s =? "0")%char || negb (deref s =? "1")%char
  end.

Definition handle_cmd_resume (arg : option string) : M D Z :=
  if resume_arg_rejected arg then
    ret (- E_DBUS_INVAL)
  else
    let star_arg := match arg with Some s => deref s | None => "000"%char end in
    let msg :=
      mk_msg (to_u8 DBUS_C_RESUME) 1
             [to_u8 (if (star_arg =? "1")%char
                     then RESUME_FLASH_MODIFIED else RESUME_NOT_MODIFIED)] in
    let resp := msg_zero in
    '(rc, resp) <- send_dbus_msg msg resp ;;
    if rc <? 0 then
      eprintf ("Failed to send resume command" ++ nl) ;;
      ret rc
    else
      let rc := - u8 (cmd resp) in
      printf ("Resume: " ++ parse_error (u8 (cmd resp)) ++ nl) ;;
      ret rc.

Definition handle_cmd_modified : M D Z :=
  let msg := set_cmd (to_u8 DBUS_C_MODIFIED) msg_zero in
  let resp := msg_zero in
  '(rc, resp) <- send_dbus_msg msg resp ;;
  if rc <? 0 then
    eprintf ("Failed to send flash modified command" ++ nl) ;;
    ret rc
  else
    let rc := - u8 (cmd resp) in
    printf ("Flash Modified: " ++ parse_error (u8 (cmd resp)) ++ nl) ;;
    ret rc.

(** *** usage, parse_cmdline and main *)

Definition USAGE (name : string) : string :=
  "Usage: " ++ name ++ " <command> [args]" ++ nl ++ nl
  ++ tab ++ "Commands:" ++ nl
  ++ tab ++ tab ++ "--ping" ++ tab ++ tab ++ tab
  ++ "- ping the daemon (args: 0)" ++ nl
  ++ tab ++ tab ++ "--status" ++ tab ++ tab
  ++ "- check status of the daemon (args: 0)" ++ nl
  ++ tab ++ tab ++ "--reset" ++ tab ++ tab ++ tab
  ++ "- hard reset the daemon state (args: 0)" ++ nl
  ++ tab ++ tab ++ "--point-to-flash" ++ tab
  ++ "- point the lpc mapping back to flash (args: 0)" ++ nl
  ++ tab ++ tab ++ "--suspend" ++ tab ++ tab
  ++ "- suspend the daemon to inhibit flash accesses (args: 0)" ++ nl
  ++ tab ++ tab ++ "--resume" ++ tab ++ tab
  ++ "- resume the daemon (args: 1)" ++ nl
  ++ tab ++ tab ++ tab
  ++ "arg[0]: whether flash was modified (0 - no | 1 - yes)" ++ nl
  ++ tab ++ tab ++ "--flash-modified" ++ tab
  ++ "- tell the daemon to discard its cache (args: 0)" ++ nl.

(** [usage] prints the text and leaves the process through [exit(0)];
    it never returns to its caller. *)
Definition usage (name : string) : M D unit :=
  printf (USAGE name) ;;
  exit 0.

(** One round of the [switch] in [parse_cmdline]: [opt] is the value
    [getopt_long] returned and [optarg] the argument it left. *)
Definition dispatch (argv0 : string) (opt : ascii) (optarg : option string)
  : M D Z :=
  if (opt =? "p")%char then handle_cmd_ping
  else if (opt =? "s")%char then handle_cmd_status
  else if (opt =? "r")%char || (opt =? "f")%char then handle_cmd_reset
  else if (opt =? "u")%char then handle_cmd_suspend
  else if (opt =? "e")%char then handle_cmd_resume optarg
  else if (opt =? "m")%char then handle_cmd_modified
  else if (opt =? "v")%char then
    printf ("MBOX Control" ++ " V" ++ "1" ++ "." ++ "00" ++ nl) ;;
    ret 0
  else if (opt =? "h")%char then
    usage argv0 ;;
    ret 0
  else
    usage argv0 ;;
    ret (- E_DBUS_INVAL).

(** The [while] loop: [rc] is overwritten by every option met. *)
Fixpoint parse_cmdline_from (argv0 : string)
    (opts : list (ascii * option string)) (rc : Z) : M D Z :=
  match opts with
  | [] => ret rc
  | (opt, optarg) :: rest =>
    rc <- dispatch argv0 opt optarg ;;
    parse_cmdline_from argv0 rest rc
  end.

Definition parse_cmdline (argv0 : string)
    (opts : list (ascii * option string)) : M D Z :=
  parse_cmdline_from argv0 opts (-1).

Definition main (argv0 : string) (opts : list (ascii * option string))
  : M D Z :=
  rc <- init_dbus_dev ;;
  if rc <? 0 then
    eprintf ("Failed to init dbus" ++ nl) ;;
    ret rc
  else
    parse_cmdline argv0 opts.

(** *** What the bus does with one request *)

(** The four calls with which [send_dbus_msg] builds and posts a request
    carrying command byte [c] and argument bytes [a], seen from the bus:
    the first negative code if one of them fails, the reply otherwise,
    together with the state the bus is left in. *)
Definition post_request (c : uint8_t) (a : list uint8_t) (d : D)
  : (Z + sd_bus_message) * D :=
  let (rc, d) := sd_bus_message_new_method_call bus d in
  if rc <? 0 then (inl rc, d) else
  let (rc, d) := sd_bus_message_append bus c d in
  if rc <? 0 then (inl rc, d) else
  let (rc, d) := sd_bus_message_append_array bus a d in
  if rc <? 0 then (inl rc, d) else
  let '(rc, n, d) := sd_bus_call bus c a d in
  if rc <? 0 then (inl rc, d) else (inr n, d).

(** The command constant the handler selected by [opt] puts into its
    request, and the number of response bytes it asks for.  All these
    handlers send no argument bytes.  The Resume handler is not listed:
    its request is never built (see [resume_arg_rejected]). *)
Definition request_shape (opt : ascii) : option (Z * nat) :=
  if (opt =? "p")%char then Some (DBUS_C_PING, 0%nat)
  else if (opt =? "s")%char then Some (DBUS_C_STATUS, 1%nat)
  else if (opt =? "r")%char || (opt =? "f")%char then Some (DBUS_C_RESET, 0%nat)
  else if (opt =? "u")%char then Some (DBUS_C_SUSPEND, 0%nat)
  else if (opt =? "m")%char then Some (DBUS_C_MODIFIED, 0%nat)
  else None.

(** The requests the handlers other than Resume build. *)
Definition plain_requests : list (uint8_t * list uint8_t) :=
  [ (to_u8 DBUS_C_PING, []); (to_u8 DBUS_C_STATUS, []);
    (to_u8 DBUS_C_RESET, []); (to_u8 DBUS_C_SUSPEND, []);
    (to_u8 DBUS_C_MODIFIED, []) ].

(** [w'] continues [w]: the same connection and message counts, and the
    requests posted in between are all plain ones. *)
Definition continues (w w' : world D) : Prop :=
  bus_refs w' = bus_refs w /\
  msg_refs w' = msg_refs w /\
  exists sent,
    calls w' = (calls w ++ sent)%list /\
    Forall (fun rq => In rq plain_requests) sent.

(** What the code [code] returned by a handler must be, by cases on what
    the bus does with the handler's request: the request carries command
    byte [c] and no arguments, [k] response bytes are asked for, and the
    bus is in state [d]. *)
Definition code_of_exchange (c : uint8_t) (k : nat) (d : D) (code : Z)
  : Prop :=
  match post_request c [] d with
  | (inl rc, _) => code = rc /\ code < 0
  | (inr n, _) =>
    match read_reply n with
    | inl rc => code = rc /\ code < 0
    | inr (st, buf) =>
      if (List.length buf <? k)%nat then
        code = - E_DBUS_INTERNAL /\ code < 0
      else
        code = - u8 st /\
        (u8 st = DBUS_SUCCESS -> code = 0) /\
        (u8 st <> DBUS_SUCCESS -> code < 0)
    end
  end.

(** The world a successful [sd_bus_default_system] leaves: the bus is in
    state [d0] and the process holds one more connection. *)
Definition connected (d0 : D) (w : world D) : world D :=
  mk_world d0 (stdout w) (stderr w) (calls w) (S (bus_refs w)) (msg_refs w).

End Mboxctl.

(** ** A concrete header, bus and initial world *)

(** Modelled from the spec: [mbox_dbus.h] is not among the sources.  The
    interface section fixes Ping = 0, Status = 1, Reset = 2, the status
    payload Active = 0 and the Resume arguments 0 (not modified) and 1
    (modified); the remaining commands and the status codes are numbered
    consecutively, Success being 0. *)
Definition mboxd_header : mbox_dbus_h := {|
  DBUS_C_PING := 0;
  DBUS_C_STATUS := 1;
  DBUS_C_RESET := 2;
  DBUS_C_SUSPEND := 3;
  DBUS_C_RESUME := 4;
  DBUS_C_MODIFIED := 5;
  DBUS_SUCCESS := 0;
  E_DBUS_INTERNAL := 1;
  E_DBUS_INVAL := 2;
  E_DBUS_REJECTED := 3;
  E_DBUS_HARDWARE := 4;
  STATUS_ACTIVE := 0;
  RESUME_NOT_MODIFIED := 0;
  RESUME_FLASH_MODIFIED := 1
|}.

(** A well-formed reply carrying [status] and [payload]. *)
Definition reply_of (status : uint8_t) (payload : list uint8_t)
  : sd_bus_message :=
  mk_reply (1, status) (1, payload).

(** A bus without state: connecting returns [connect_rc], building a
    request always works, and every call is answered with [n]. *)
Definition scripted_bus (connect_rc : Z) (n : sd_bus_message) : sd_bus unit :=
  mk_bus unit
    (fun d => (connect_rc, d))
    (fun d => (0, d))
    (fun _ d => (0, d))
    (fun _ d => (0, d))
    (fun _ _ d => (1, n, d)).

(** A bus on which [sd_bus_call] fails with [-ECONNREFUSED]. *)
Definition refusing_bus : sd_bus unit :=
  mk_bus unit
    (fun d => (0, d))
    (fun d => (0, d))
    (fun _ d => (0, d))
    (fun _ d => (0, d))
    (fun _ _ d => (-111, reply_of x00 [], d)).

Definition strerror_stub (errnum : Z) : string := "error".

Definition world0 : world unit := mk_world tt "" "" [] 0 0.

(** ** common.c: integers in memory *)

(** The order in which the host stores the bytes of an integer. *)
Inductive byte_order : Type :=
| LittleEndian
| BigEndian.

(** The [n] low-order bytes of [v], least significant first, and the
    number a sequence of bytes denotes when read that way. *)
Fixpoint le_bytes (n : nat) (v : Z) : list uint8_t :=
  match n with
  | O => []
  | S k => to_u8 v :: le_bytes k (v / 256)
  end.

Fixpoint le_value (bs : list uint8_t) : Z :=
  match bs with
  | [] => 0
  | b :: rest => u8 b + 256 * le_value rest
  end.

(** The object representation of an unsigned integer of [size] bytes
    holding [v], and the value of such an object. *)
Definition object_bytes (host : byte_order) (size : nat) (v : Z)
  : list uint8_t :=
  match host with
  | LittleEndian => le_bytes size v
  | BigEndian => rev (le_bytes size v)
  end.

Definition object_value (host : byte_order) (bs : list uint8_t) : Z :=
  match host with
  | LittleEndian => le_value bs
  | BigEndian => le_value (rev bs)
  end.

Section Common.

Variable host : byte_order.

(** In the four accessors [ptr] stands for the bytes of the object from
    the address [ptr] on; a result of [None] means that the access runs
    past the end of that object. *)

(** The object at [ptr] read through a pointer to [uint16_t]. *)
Definition get_u16 (ptr : list uint8_t) : option Z :=
  if (List.length ptr <? 2)%nat then None
  else Some (object_value host (firstn 2 ptr)).

(** [memcpy(ptr, &val, sizeof(val));] with [val] a [uint16_t]. *)
Definition put_u16 (ptr : list uint8_t) (val : Z) : option (list uint8_t) :=
  if (List.length ptr <? 2)%nat then None
  else Some (memcpy ptr (object_bytes host 2 val) 2).

(** The object at [ptr] read through a pointer to [uint32_t]. *)
Definition get_u32 (ptr : list uint8_t) : option Z :=
  if (List.length ptr <? 4)%nat then None
  else Some (object_value host (firstn 4 ptr)).

(** [memcpy(ptr, &val, sizeof(val));] with [val] a [uint32_t]. *)
Definition put_u32 (ptr : list uint8_t) (val : Z) : option (list uint8_t) :=
  if (List.length ptr <? 4)%nat then None
  else Some (memcpy ptr (object_bytes host 4 val) 4).

End Common.

(** ** common.c: finding the flash partition *)

(** C strings are represented by the characters before their
    terminator.  The library functions used are modelled after their
    manual pages, for the C locale. *)

Definition newline : ascii := "010"%char.

(** [tolower] *)
Definition tolower (c : ascii) : ascii :=
  let n := nat_of_ascii c in
  if ((65 <=? n) && (n <=? 90))%nat then ascii_of_nat (n + 32) else c.

Fixpoint lower (s : string) : string :=
  match s with
  | EmptyString => EmptyString
  | String c rest => String (tolower c) (lower rest)
  end.

(** [needle] starts [hay], letter case ignored. *)
Fixpoint caseprefix (needle hay : string) : bool :=
  match needle, hay with
  | EmptyString, _ => true
  | String _ _, EmptyString => false
  | String a needle', String b hay' =>
    (tolower a =? tolower b)%char && caseprefix needle' hay'
  end.

(** [strcasestr(hay, needle)]: the rest of [hay] from the first
    occurrence of [needle] on, letter case ignored; [None] is the null
    pointer. *)
Fixpoint strcasestr (hay needle : string) : option string :=
  if caseprefix needle hay then Some hay
  else match hay with
       | EmptyString => None
       | String _ rest => strcasestr rest needle
       end.

(** [strchr(s, c)] for a character [c] other than the terminator: the
    offset of the first [c] in [s]. *)
Fixpoint strchr (s : string) (c : ascii) : option nat :=
  match s with
  | EmptyString => None
  | String a rest =>
    if (a =? c)%char then Some O else option_map S (strchr rest c)
  end.

(** The C string held by a buffer: its characters up to the first
    terminator. *)
Fixpoint cstr (buf : string) : string :=
  match buf with
  | EmptyString => EmptyString
  | String c rest => if (c =? "000")%char then EmptyString
                     else String c (cstr rest)
  end.

(** [s[strlen(s) - 1]]; [None] when [s] is empty, where the index is
    outside the string. *)
Fixpoint last_char (s : string) : option ascii :=
  match s with
  | EmptyString => None
  | String c EmptyString => Some c
  | String _ rest => last_char rest
  end.

(** One call of [fgets] with room for [room] characters: characters are
    taken from the stream [f] up to and including the first newline,
    until the room or the stream is used up. *)
Fixpoint fgets_from (room : nat) (f : string) : string * string :=
  match room with
  | O => (EmptyString, f)
  | S room' =>
    match f with
    | EmptyString => (EmptyString, EmptyString)
    | String c rest =>
      if (c =? newline)%char then (String c EmptyString, rest)
      else let (line, f') := fgets_from room' rest in (String c line, f')
    end
  end.

(** [fgets(line, size, f)]: [None] (the null pointer) at the end of the
    stream, otherwise what was stored and the rest of the stream. *)
Definition fgets (size : nat) (f : string) : option (string * string) :=
  match f with
  | EmptyString => None
  | String _ _ => Some (fgets_from (size - 1) f)
  end.

(** What a function does: it returns, or it reads outside an object. *)
Inductive behaviour (A : Type) : Type :=
| Result (a : A)
| OutOfBounds.

Arguments Result {A}.
Arguments OutOfBounds {A}.

(** [return strcasestr(str, "pnor") != NULL;] *)
Definition is_pnor_part (str : string) : bool :=
  match strcasestr str "pnor" with
  | Some _ => true
  | None => false
  end.

(** The [while] loop of [get_dev_mtd] over the stream [f].  The result
    is [line] cut at [pos] when the loop ends with [pos] set, and [None]
    when it ends with [pos] null: at the end of the stream or through
    one of the two [break]s.  [fuel] bounds the number of rounds; every
    round consumes a character, so the length of the stream is enough
    (see [scan_mtd_fuel]). *)
Fixpoint scan_mtd (fuel : nat) (f : string) : behaviour (option string) :=
  match fuel with
  | O => Result None
  | S fuel' =>
    match fgets 255 f with
    | None => Result None
    | Some (buf, f') =>
      let line := cstr buf in
      match last_char line with
      | None => OutOfBounds
      | Some c =>
        if negb (c =? newline)%char then Result None
        else if is_pnor_part line then
          match strchr line ":" with
          | None => Result None
          | Some pos => Result (Some (substring 0 pos line))
          end
        else scan_mtd fuel' f'
      end
    end
  end.

(** [get_dev_mtd]: [proc_mtd] is the contents of [/proc/mtd], or [None]
    when the file cannot be opened.  [asprintf] is taken to succeed. *)
Definition get_dev_mtd (proc_mtd : option string)
  : behaviour (option string) :=
  match proc_mtd with
  | None => Result None
  | Some f =>
    match scan_mtd (String.length f) f with
    | Result (Some name) => Result (Some ("/dev/" ++ name))
    | Result None => Result None
    | OutOfBounds => OutOfBounds
    end
  end.

(** Text made of the given lines, one after the other. *)
Fixpoint text_of (lines : list string) : string :=
  match lines with
  | [] => EmptyString
  | l :: rest => l ++ text_of rest
  end.

(** [s] is a line with its newline: it is not empty, its last character
    is the only newline, and it holds no terminator. *)
Fixpoint terminated (s : string) : bool :=
  match s with
  | EmptyString => false
  | String c EmptyString => (c =? newline)%char
  | String c rest =>
    negb (c =? newline)%char && negb (c =? "000")%char && terminated rest
  end.

(** A line [fgets] reads in one piece into the 255 bytes of [line]. *)
Definition complete_line (s : string) : bool :=
  terminated s && (String.length s <=? 254)%nat.

(** The first [room] characters of [s] (all of them if [s] is shorter)
    are neither newlines nor terminators. *)
Fixpoint plain_prefix (room : nat) (s : string) : bool :=
  match room, s with
  | O, _ => true
  | _, EmptyString => true
  | S room', String c rest =>
    negb (c =? newline)%char && negb (c =? "000")%char &&
    plain_prefix room' rest
  end.

(** What [fgets] stores from [s] does not end a line: [s] is not empty
    and no newline is met within the 254 characters that fit. *)
Definition unterminated (s : string) : bool :=
  negb (s =? EmptyString)%string && plain_prefix 254 s.

(** The device a line of [/proc/mtd] names: the text before its first
    colon. *)
Definition device_of (line : string) : option string :=
  match strchr line ":" with
  | Some pos => Some ("/dev/" ++ substring 0 pos line)
  | None => None
  end.


(** ** mboxctl.c: building a request *)

(** The three calls by which [send_dbus_msg] builds its request before
    posting it, seen from the bus: the code of the first call that
    fails, or of the last one, and the state the bus is left in. *)
Definition build_request {D : Type} (bus : sd_bus D)
    (c : uint8_t) (a : list uint8_t) (d : D) : Z * D :=
  let (rc, d) := sd_bus_message_new_method_call bus d in
  if rc <? 0 then (rc, d) else
  let (rc, d) := sd_bus_message_append bus c d in
  if rc <? 0 then (rc, d) else
  sd_bus_message_append_array bus a d.


(** ** Further concrete inputs *)

(** A bus on which the call that adds the command byte to the request
    fails with [-ENOMEM]. *)
Definition exhausted_bus : sd_bus unit :=
  mk_bus unit
    (fun d => (0, d))
    (fun d => (0, d))
    (fun _ d => (-12, d))
    (fun _ d => (0, d))
    (fun _ _ d => (1, reply_of x00 [], d)).

(** The lines of a small [/proc/mtd]. *)
Definition proc_mtd_lines : list string :=
  [ "dev:    size   erasesize  name" ++ nl;
    "mtd0: 00400000 00010000 u-boot" ++ nl;
    "mtd6: 04000000 00010000 PNOR" ++ nl;
    "mtd7: 04000000 00010000 pnor-copy" ++ nl ].

(** ** Properties *)

Section Properties.

Context {hdr : mbox_dbus_h} {D : Type}.
Variable bus : sd_bus D.
Variable strerror : Z -> string.

(** *** The exchange *)

Ltac run_bus :=
  repeat (cbv beta iota zeta in *;
    cbn [fst snd negb pred daemon stdout stderr calls bus_refs msg_refs
         cmd num_args args set_cmd set_args] in *;
    match goal with
    | H : true = false |- _ => discriminate H
    | H : false = true |- _ => discriminate H
    | H : inl _ = inr _ |- _ => discriminate H
    | H : inr _ = inl _ |- _ => discriminate H
    | H : (_, _) = (_, _) |- _ => inversion H; subst; clear H
    | H : inl _ = inl _ |- _ => inversion H; subst; clear H
    | H : inr _ = inr _ |- _ => inversion H; subst; clear H
    | H : ?e = (_, _) |- context [?e] => rewrite H
    | H : ?e = true |- context [?e] => rewrite H
    | H : ?e = false |- context [?e] => rewrite H
    | |- context [if (?a <? ?b)%nat then _ else _] =>
      destruct (a <? b)%nat eqn:?
    | H : context [let (_, _) := ?e in _] |- _ => destruct e eqn:?
    | H : context [if ?c <? 0 then _ else _] |- _ => destruct (c <? 0) eqn:?
    | |- context [let (_, _) := ?e in _] => destruct e eqn:?
    | |- context [if ?c <? 0 then _ else _] => destruct (c <? 0) eqn:?
    end).

(** A reply that arrives and can be read: the exchange ends in the
    length check. *)
Lemma send_dbus_msg_received msg resp w n d' st buf :
  post_request bus (cmd msg) (firstn (num_args msg) (args msg)) (daemon w)
    = (inr n, d') ->
  read_reply n = inr (st, buf) ->
  send_dbus_msg bus strerror msg resp w =
    if (List.length buf <? num_args resp)%nat then
      (Return (- E_DBUS_INTERNAL, set_cmd st resp),
       mk_world d' (stdout w)
         (stderr w ++ ("Command returned insufficient response args" ++ nl))
         (calls w ++ [(cmd msg, firstn (num_args msg) (args msg))])%list
         (bus_refs w) (msg_refs w))
    else
      (Return (0, set_args (memcpy (args resp) buf (num_args resp))
                           (set_cmd st resp)),
       mk_world d' (stdout w) (stderr w)
         (calls w ++ [(cmd msg, firstn (num_args msg) (args msg))])%list
         (bus_refs w) (msg_refs w)).
Proof.
  unfold post_request, read_reply, send_dbus_msg, send_dbus_msg_body.
  unfold bind, message_new_method_call, message_append, message_append_array,
    bus_call, message_unref, eprintf, ret.
  intros Hpost Hread.
  run_bus; reflexivity.
Qed.

(** The request could not be built or posted: the first negative code
    is returned and the response structure is left as it was. *)
Lemma send_dbus_msg_post_failed msg resp w rc d' :
  post_request bus (cmd msg) (firstn (num_args msg) (args msg)) (daemon w)
    = (inl rc, d') ->
  rc < 0 /\
  exists e cs,
    send_dbus_msg bus strerror msg resp w =
      (Return (rc, resp),
       mk_world d' (stdout w) (stderr w ++ e) cs (bus_refs w) (msg_refs w)) /\
    (cs = calls w \/
     cs = (calls w ++ [(cmd msg, firstn (num_args msg) (args msg))])%list).
Proof.
  unfold post_request, send_dbus_msg, send_dbus_msg_body.
  unfold bind, message_new_method_call, message_append, message_append_array,
    bus_call, message_unref, eprintf, ret.
  intros Hpost.
  run_bus; (split; [now apply Z.ltb_lt |]);
    eexists; eexists; (split; [reflexivity | auto]).
Qed.

(** The reply arrived but one of the two reads failed. *)
Lemma send_dbus_msg_read_failed msg resp w n d' rc :
  post_request bus (cmd msg) (firstn (num_args msg) (args msg)) (daemon w)
    = (inr n, d') ->
  read_reply n = inl rc ->
  rc < 0 /\
  exists resp' e,
    send_dbus_msg bus strerror msg resp w =
      (Return (rc, resp'),
       mk_world d' (stdout w) (stderr w ++ e)
         (calls w ++ [(cmd msg, firstn (num_args msg) (args msg))])%list
         (bus_refs w) (msg_refs w)) /\
    args resp' = args resp.
Proof.
  unfold post_request, read_reply, send_dbus_msg, send_dbus_msg_body.
  unfold bind, message_new_method_call, message_append, message_append_array,
    bus_call, message_unref, eprintf, ret.
  intros Hpost Hread.
  run_bus; (split; [now apply Z.ltb_lt |]);
    eexists; eexists; (split; reflexivity).
Qed.

(** What every exchange leaves untouched, whatever the bus does: it
    returns to its caller, writes nothing to the standard output, keeps
    the connection count and has released the messages it created; it
    posts at most the one request it was given. *)
Lemma send_dbus_msg_frame msg resp w :
  exists rc resp' w',
    send_dbus_msg bus strerror msg resp w = (Return (rc, resp'), w') /\
    stdout w' = stdout w /\
    bus_refs w' = bus_refs w /\
    msg_refs w' = msg_refs w /\
    (calls w' = calls w \/
     calls w' =
       (calls w ++ [(cmd msg, firstn (num_args msg) (args msg))])%list).
Proof.
  destruct (post_request bus (cmd msg) (firstn (num_args msg) (args msg))
              (daemon w)) as [[rc | n] d'] eqn:Hpost.
  - destruct (send_dbus_msg_post_failed msg resp w rc d' Hpost)
      as [Hneg [e [cs [Hrun Hcs]]]].
    rewrite Hrun. do 3 eexists. split; [reflexivity |].
    cbn [stdout bus_refs msg_refs calls]. repeat split; auto.
  - destruct (read_reply n) as [rc | [st buf]] eqn:Hread.
    + destruct (send_dbus_msg_read_failed msg resp w n d' rc Hpost Hread)
        as [Hneg [resp' [e [Hrun Hargs]]]].
      rewrite Hrun. do 3 eexists. split; [reflexivity |].
      cbn [stdout bus_refs msg_refs calls]. repeat split; auto.
    + rewrite (send_dbus_msg_received msg resp w n d' st buf Hpost Hread).
      destruct (List.length buf <? num_args resp)%nat eqn:Hlen;
        do 3 eexists; (split; [reflexivity |]);
        cbn [stdout bus_refs msg_refs calls]; repeat split; auto.
Qed.

(** *** What the handlers leave untouched *)

Lemma continues_refl (w : world D) : continues w w.
Proof.
  repeat split. exists []. split; [now rewrite app_nil_r | constructor].
Qed.

Lemma continues_trans (w1 w2 w3 : world D) :
  continues w1 w2 -> continues w2 w3 -> continues w1 w3.
Proof.
  intros (Hb1 & Hm1 & s1 & Hc1 & Hf1) (Hb2 & Hm2 & s2 & Hc2 & Hf2).
  repeat split; try congruence.
  exists (s1 ++ s2)%list. split.
  - rewrite Hc2, Hc1. now rewrite app_assoc.
  - apply Forall_app. now split.
Qed.

Lemma continues_printf s (w : world D) : continues w (snd (printf s w)).
Proof.
  repeat split. exists []. split; [now rewrite app_nil_r | constructor].
Qed.

Lemma continues_eprintf s (w : world D) : continues w (snd (eprintf s w)).
Proof.
  repeat split. exists []. split; [now rewrite app_nil_r | constructor].
Qed.

(** An exchange that posts a plain request. *)
Lemma send_dbus_msg_continues msg resp w :
  In (cmd msg, firstn (num_args msg) (args msg)) plain_requests ->
  exists rc resp' w',
    send_dbus_msg bus strerror msg resp w = (Return (rc, resp'), w') /\
    continues w w'.
Proof.
  intros Hin.
  destruct (send_dbus_msg_frame msg resp w)
    as (rc & resp' & w' & Hrun & _ & Hb & Hm & Hc).
  exists rc, resp', w'. split; [exact Hrun |].
  repeat split; auto.
  destruct Hc as [Hc | Hc].
  - exists []. split; [now rewrite app_nil_r | constructor].
  - eexists. split; [exact Hc |]. constructor; [exact Hin | constructor].
Qed.

Ltac handler_continues :=
  match goal with
  | |- context [send_dbus_msg ?b ?s ?msg ?resp ?w] =>
    let Hin := fresh "Hin" in
    assert (Hin : In (cmd msg, firstn (num_args msg) (args msg))
                     plain_requests)
      by (cbn; tauto);
    destruct (send_dbus_msg_continues msg resp w Hin)
      as (?rc & ?resp' & ?w' & ?Hrun & ?Hcont);
    rewrite Hrun; clear Hrun
  end;
  repeat match goal with
  | |- context [if ?c then _ else _] => destruct c
  end;
  unfold bind, printf, eprintf, ret; cbn [fst snd];
  eexists; eexists; (split; [reflexivity |]);
  (eapply continues_trans; [eassumption |]);
  repeat split; exists []; (split; [now rewrite app_nil_r | constructor]).

Lemma handle_cmd_ping_continues w :
  exists rc w', handle_cmd_ping bus strerror w = (Return rc, w') /\
                continues w w'.
Proof. unfold handle_cmd_ping, bind at 1. handler_continues. Qed.

Lemma handle_cmd_status_continues w :
  exists rc w', handle_cmd_status bus strerror w = (Return rc, w') /\
                continues w w'.
Proof. unfold handle_cmd_status, bind at 1. handler_continues. Qed.

Lemma handle_cmd_reset_continues w :
  exists rc w', handle_cmd_reset bus strerror w = (Return rc, w') /\
                continues w w'.
Proof. unfold handle_cmd_reset, bind at 1. handler_continues. Qed.

Lemma handle_cmd_suspend_continues w :
  exists rc w', handle_cmd_suspend bus strerror w = (Return rc, w') /\
                continues w w'.
Proof. unfold handle_cmd_suspend, bind at 1. handler_continues. Qed.

Lemma handle_cmd_modified_continues w :
  exists rc w', handle_cmd_modified bus strerror w = (Return rc, w') /\
                continues w w'.
Proof. unfold handle_cmd_modified, bind at 1. handler_continues. Qed.

(** *** The Resume handler *)

(** No character differs from neither ['0'] nor ['1']. *)
Lemma resume_guard_always_true (c : ascii) :
  negb (c =? "0")%char || negb (c =? "1")%char = true.
Proof.
  destruct (c =? "0")%char eqn:E0; [| reflexivity].
  apply Ascii.eqb_eq in E0. subst c. reflexivity.
Qed.

Lemma resume_arg_rejected_always (arg : option string) :
  resume_arg_rejected arg = true.
Proof.
  destruct arg as [s |]; [apply resume_guard_always_true | reflexivity].
Qed.

(** The handler leaves through its first branch, whatever the argument. *)
Lemma handle_cmd_resume_inval (arg : option string) (w : world D) :
  handle_cmd_resume bus strerror arg w = (Return (- E_DBUS_INVAL), w).
Proof.
  unfold handle_cmd_resume. now rewrite resume_arg_rejected_always.
Qed.

(** *** The dispatch loop and main *)

Ltac by_handler L w :=
  destruct (L w) as (?rc & ?w' & ?Hrun & ?Hcont); rewrite Hrun; exact Hcont.

Lemma dispatch_continues argv0 opt optarg (w : world D) :
  continues w (snd (dispatch bus strerror argv0 opt optarg w)).
Proof.
  unfold dispatch.
  destruct (opt =? "p")%char; [by_handler handle_cmd_ping_continues w |].
  destruct (opt =? "s")%char; [by_handler handle_cmd_status_continues w |].
  destruct ((opt =? "r")%char || (opt =? "f")%char);
    [by_handler handle_cmd_reset_continues w |].
  destruct (opt =? "u")%char; [by_handler handle_cmd_suspend_continues w |].
  destruct (opt =? "e")%char;
    [rewrite handle_cmd_resume_inval; apply continues_refl |].
  destruct (opt =? "m")%char; [by_handler handle_cmd_modified_continues w |].
  destruct (opt =? "v")%char; [| destruct (opt =? "h")%char];
    repeat split; exists []; (split; [now rewrite app_nil_r | constructor]).
Qed.

Lemma parse_cmdline_from_continues argv0 opts rc (w : world D) :
  continues w (snd (parse_cmdline_from bus strerror argv0 opts rc w)).
Proof.
  revert rc w.
  induction opts as [| [opt optarg] rest IH]; intros rc w.
  - apply continues_refl.
  - cbn [parse_cmdline_from]. unfold bind.
    pose proof (dispatch_continues argv0 opt optarg w) as Hd.
    destruct (dispatch bus strerror argv0 opt optarg w) as [[rc' | st] w'].
    + eapply continues_trans; [exact Hd | apply IH].
    + exact Hd.
Qed.

Lemma main_connected argv0 opts w r0 d0 :
  sd_bus_default_system bus (daemon w) = (r0, d0) ->
  0 <= r0 ->
  main bus strerror argv0 opts w =
    parse_cmdline bus strerror argv0 opts (connected d0 w).
Proof.
  intros Hconn Hr0.
  unfold main, init_dbus_dev, bind, bus_default_system, ret.
  rewrite Hconn.
  assert (Hlt : (r0 <? 0) = false) by now apply Z.ltb_ge.
  rewrite Hlt. cbn [daemon stdout stderr calls bus_refs msg_refs].
  rewrite Hlt. reflexivity.
Qed.

Lemma main_one_option argv0 opt optarg w r0 d0 :
  sd_bus_default_system bus (daemon w) = (r0, d0) ->
  0 <= r0 ->
  exit_code (main bus strerror argv0 [(opt, optarg)] w) =
    exit_code (dispatch bus strerror argv0 opt optarg (connected d0 w)) /\
  snd (main bus strerror argv0 [(opt, optarg)] w) =
    snd (dispatch bus strerror argv0 opt optarg (connected d0 w)).
Proof.
  intros Hconn Hr0.
  rewrite (main_connected argv0 _ w r0 d0 Hconn Hr0).
  unfold parse_cmdline. cbn [parse_cmdline_from]. unfold bind, ret.
  destruct (dispatch bus strerror argv0 opt optarg (connected d0 w))
    as [[rc | st] w']; split; reflexivity.
Qed.

Lemma main_not_connected argv0 opts w r0 d0 :
  sd_bus_default_system bus (daemon w) = (r0, d0) ->
  r0 < 0 ->
  main bus strerror argv0 opts w =
    (Return r0,
     mk_world d0 (stdout w)
       ((stderr w ++ ("Failed to connect to the system bus: "
                      ++ strerror (- r0) ++ nl))
        ++ ("Failed to init dbus" ++ nl))
       (calls w) (bus_refs w) (msg_refs w)).
Proof.
  intros Hconn Hr0.
  unfold main, init_dbus_dev, bind, bus_default_system, eprintf, ret.
  rewrite Hconn.
  assert (Hlt : (r0 <? 0) = true) by now apply Z.ltb_lt.
  rewrite Hlt. cbn [daemon stdout stderr calls bus_refs msg_refs].
  rewrite Hlt. reflexivity.
Qed.

(** *** The code a handler returns *)

Lemma u8_nonneg (b : uint8_t) : 0 <= u8 b.
Proof. unfold u8. apply N2Z.is_nonneg. Qed.

(** The code of an exchange, by cases on what the bus does. *)
Lemma send_dbus_msg_rc msg resp w :
  0 < E_DBUS_INTERNAL ->
  match post_request bus (cmd msg) (firstn (num_args msg) (args msg))
          (daemon w) with
  | (inl rc, _) =>
    rc < 0 /\ exists resp' w',
      send_dbus_msg bus strerror msg resp w = (Return (rc, resp'), w')
  | (inr n, _) =>
    match read_reply n with
    | inl rc =>
      rc < 0 /\ exists resp' w',
        send_dbus_msg bus strerror msg resp w = (Return (rc, resp'), w')
    | inr (st, buf) =>
      if (List.length buf <? num_args resp)%nat then
        - E_DBUS_INTERNAL < 0 /\ exists resp' w',
          send_dbus_msg bus strerror msg resp w
            = (Return (- E_DBUS_INTERNAL, resp'), w')
      else
        exists resp' w',
          send_dbus_msg bus strerror msg resp w = (Return (0, resp'), w') /\
          cmd resp' = st
    end
  end.
Proof.
  intros Hpos.
  destruct (post_request bus (cmd msg) (firstn (num_args msg) (args msg))
              (daemon w)) as [[rc | n] d'] eqn:Hpost.
  - destruct (send_dbus_msg_post_failed msg resp w rc d' Hpost)
      as (Hneg & e & cs & Hrun & _).
    split; [exact Hneg | eauto].
  - destruct (read_reply n) as [rc | [st buf]] eqn:Hread.
    + destruct (send_dbus_msg_read_failed msg resp w n d' rc Hpost Hread)
        as (Hneg & resp' & e & Hrun & _).
      split; [exact Hneg | eauto].
    + rewrite (send_dbus_msg_received msg resp w n d' st buf Hpost Hread).
      destruct (List.length buf <? num_args resp)%nat.
      * split; [lia | eauto].
      * do 2 eexists. split; reflexivity.
Qed.

Ltac handler_code :=
  intros Hzero Hpos;
  unfold code_of_exchange, bind; cbv beta zeta;
  match goal with
  | |- context [send_dbus_msg ?b ?s ?msg ?resp ?w] =>
    pose proof (send_dbus_msg_rc msg resp w Hpos) as Hrc;
    cbn [cmd num_args args set_cmd msg_zero firstn] in Hrc
  end;
  repeat match goal with
  | H : context [match ?e with (_, _) => _ end] |- _ => destruct e
  | H : context [match ?e with inl _ => _ | inr _ => _ end] |- _ => destruct e
  | H : context [if ?e then _ else _] |- _ => destruct e
  | H : _ /\ _ |- _ => destruct H
  | H : exists _, _ |- _ => destruct H
  end;
  match goal with
  | H : send_dbus_msg _ _ _ _ _ = _ |- _ => rewrite H
  end;
  repeat match goal with
  | H : ?rc < 0 |- context [?rc <? 0] =>
    let E := fresh in
    assert (E : (rc <? 0) = true) by (now apply Z.ltb_lt); rewrite E; clear E
  end;
  cbn [Z.ltb Z.compare];
  unfold printf, eprintf, ret; cbn [fst snd exit_code];
  repeat match goal with
  | |- context [if ?e then _ else _] => destruct e
  end;
  cbn [fst snd exit_code]; subst;
  try (split; [reflexivity | assumption]);
  match goal with
  | |- context [u8 ?b] => pose proof (u8_nonneg b)
  end;
  repeat split; lia.

Lemma handle_cmd_ping_code w :
  DBUS_SUCCESS = 0 -> 0 < E_DBUS_INTERNAL ->
  code_of_exchange bus (to_u8 DBUS_C_PING) 0 (daemon w)
    (exit_code (handle_cmd_ping bus strerror w)).
Proof. unfold handle_cmd_ping. handler_code. Qed.

Lemma handle_cmd_status_code w :
  DBUS_SUCCESS = 0 -> 0 < E_DBUS_INTERNAL ->
  code_of_exchange bus (to_u8 DBUS_C_STATUS) 1 (daemon w)
    (exit_code (handle_cmd_status bus strerror w)).
Proof. unfold handle_cmd_status. handler_code. Qed.

Lemma handle_cmd_reset_code w :
  DBUS_SUCCESS = 0 -> 0 < E_DBUS_INTERNAL ->
  code_of_exchange bus (to_u8 DBUS_C_RESET) 0 (daemon w)
    (exit_code (handle_cmd_reset bus strerror w)).
Proof. unfold handle_cmd_reset. handler_code. Qed.

Lemma handle_cmd_suspend_code w :
  DBUS_SUCCESS = 0 -> 0 < E_DBUS_INTERNAL ->
  code_of_exchange bus (to_u8 DBUS_C_SUSPEND) 0 (daemon w)
    (exit_code (handle_cmd_suspend bus strerror w)).
Proof. unfold handle_cmd_suspend. handler_code. Qed.

Lemma handle_cmd_modified_code w :
  DBUS_SUCCESS = 0 -> 0 < E_DBUS_INTERNAL ->
  code_of_exchange bus (to_u8 DBUS_C_MODIFIED) 0 (daemon w)
    (exit_code (handle_cmd_modified bus strerror w)).
Proof. unfold handle_cmd_modified. handler_code. Qed.

(** *** The error taxonomy *)

(** C4.  [parse_error] is defined on every [int].  Where the five status
    constants of the header are pairwise distinct (as the labels of a
    [switch] must be), each of them is mapped to its own phrase, and
    every other value is mapped to the phrase for an unknown error. *)
Theorem parse_error_total :
  NoDup [DBUS_SUCCESS; E_DBUS_INTERNAL; E_DBUS_INVAL; E_DBUS_REJECTED;
         E_DBUS_HARDWARE] ->
  parse_error DBUS_SUCCESS = "Success" /\
  parse_error E_DBUS_INTERNAL = "Failed - Internal Error" /\
  parse_error E_DBUS_INVAL = "Failed - Invalid Command or Request" /\
  parse_error E_DBUS_REJECTED = "Failed - Request Rejected by Daemon" /\
  parse_error E_DBUS_HARDWARE = "Failed - BMC Hardware Error" /\
  (forall v : Z,
      ~ In v [DBUS_SUCCESS; E_DBUS_INTERNAL; E_DBUS_INVAL; E_DBUS_REJECTED;
              E_DBUS_HARDWARE] ->
      parse_error v = "Failed - Unknown Error").
Proof using Type.
  clear bus strerror.
  intros Hnd.
  repeat match goal with
         | H : NoDup (_ :: _) |- _ => inversion H; clear H; subst
         end.
  cbn [In] in *.
  unfold parse_error.
  repeat split; try intros v Hv;
    repeat match goal with
           | |- context [?a =? ?b] => destruct (Z.eqb_spec a b)
           end;
    try reflexivity; exfalso; intuition congruence.
Qed.

(** *** The length check of the exchange *)

(** C1.  When the request was posted, the reply was read, and the reply
    carries fewer argument bytes than the caller declared, the exchange
    reports the shortage on the error stream and returns
    [-E_DBUS_INTERNAL]; with a positive [E_DBUS_INTERNAL] this is a
    negative code, so neither success nor anything derived from the
    status byte of the reply.  The caller's argument buffer is left as
    it was.  (A declared length above the reply's is at least 1.) *)
Theorem send_dbus_msg_insufficient_args msg resp w n d' st buf :
  0 < E_DBUS_INTERNAL ->
  post_request bus (cmd msg) (firstn (num_args msg) (args msg)) (daemon w)
    = (inr n, d') ->
  read_reply n = inr (st, buf) ->
  (List.length buf < num_args resp)%nat ->
  (1 <= num_args resp)%nat /\
  exists resp' w',
    send_dbus_msg bus strerror msg resp w
      = (Return (- E_DBUS_INTERNAL, resp'), w') /\
    - E_DBUS_INTERNAL < 0 /\
    args resp' = args resp /\
    stdout w' = stdout w /\
    stderr w' =
      stderr w ++ ("Command returned insufficient response args" ++ nl).
Proof.
  intros Hpos Hpost Hread Hlen.
  split; [lia |].
  rewrite (send_dbus_msg_received msg resp w n d' st buf Hpost Hread).
  apply Nat.ltb_lt in Hlen. rewrite Hlen.
  do 2 eexists. split; [reflexivity |].
  repeat split. lia.
Qed.

(** C5.  When the reply carries at least as many argument bytes as the
    caller declared, the exchange succeeds and the caller's buffer
    starts with exactly the first [num_args] bytes of the reply; what
    the buffer holds beyond them is what it held before, so no further
    byte of the reply reaches the caller.  In particular a buffer of
    the declared size ends up equal to that prefix of the reply. *)
Theorem send_dbus_msg_copies_declared msg resp w n d' st buf :
  post_request bus (cmd msg) (firstn (num_args msg) (args msg)) (daemon w)
    = (inr n, d') ->
  read_reply n = inr (st, buf) ->
  (num_args resp <= List.length buf)%nat ->
  exists resp' w',
    send_dbus_msg bus strerror msg resp w = (Return (0, resp'), w') /\
    cmd resp' = st /\
    num_args resp' = num_args resp /\
    firstn (num_args resp) (args resp') = firstn (num_args resp) buf /\
    skipn (num_args resp) (args resp') = skipn (num_args resp) (args resp) /\
    (List.length (args resp) = num_args resp ->
     args resp' = firstn (num_args resp) buf) /\
    stdout w' = stdout w /\
    stderr w' = stderr w.
Proof.
  intros Hpost Hread Hlen.
  rewrite (send_dbus_msg_received msg resp w n d' st buf Hpost Hread).
  apply Nat.ltb_ge in Hlen. rewrite Hlen. apply Nat.ltb_ge in Hlen.
  do 2 eexists. split; [reflexivity |].
  cbn [cmd num_args args set_args set_cmd stdout stderr]. unfold memcpy.
  assert (Hpre : List.length (firstn (num_args resp) buf) = num_args resp)
    by (rewrite length_firstn; lia).
  repeat split.
  - rewrite firstn_app, Hpre, Nat.sub_diag. cbn [firstn].
    rewrite app_nil_r. rewrite <- Hpre at 1. apply firstn_all.
  - rewrite skipn_app, Hpre, Nat.sub_diag. cbn [skipn].
    rewrite <- Hpre at 1. now rewrite skipn_all.
  - intros Hbuf. rewrite <- Hbuf at 2. rewrite skipn_all. apply app_nil_r.
Qed.

(** *** Resume *)

(** C2.  An argument that is neither the string "0" nor the string "1"
    (the null pointer included) makes the Resume handler return
    [-E_DBUS_INVAL] in an unchanged world: no request has been posted
    and nothing has been printed. *)
Theorem handle_cmd_resume_rejects_other (arg : option string) (w : world D) :
  arg <> Some "0" ->
  arg <> Some "1" ->
  handle_cmd_resume bus strerror arg w = (Return (- E_DBUS_INVAL), w).
Proof.
  intros _ _. apply handle_cmd_resume_inval.
Qed.

(** C3.  The guard of the Resume handler holds for every first
    character, so the handler returns [-E_DBUS_INVAL] in an unchanged
    world for every argument, "0" and "1" included.  Consequently,
    whatever options a process is given, every request it posts is one
    of the requests of the other five handlers; where the Resume command
    byte differs from theirs, no posted request carries it. *)
Theorem resume_never_sent :
  ~ In (to_u8 DBUS_C_RESUME) (map fst plain_requests) ->
  (forall c : ascii, negb (c =? "0")%char || negb (c =? "1")%char = true) /\
  (forall (arg : option string) (w : world D),
      handle_cmd_resume bus strerror arg w = (Return (- E_DBUS_INVAL), w)) /\
  (forall argv0 opts (w : world D),
      exists sent,
        calls (snd (main bus strerror argv0 opts w)) = (calls w ++ sent)%list /\
        Forall (fun rq => In rq plain_requests) sent /\
        forall a, ~ In (to_u8 DBUS_C_RESUME, a) sent).
Proof.
  intros Hdistinct.
  split; [exact resume_guard_always_true |].
  split; [exact handle_cmd_resume_inval |].
  intros argv0 opts w.
  assert (Hsent : exists sent,
             calls (snd (main bus strerror argv0 opts w))
               = (calls w ++ sent)%list /\
             Forall (fun rq => In rq plain_requests) sent).
  { destruct (sd_bus_default_system bus (daemon w)) as [r0 d0] eqn:Hconn.
    destruct (Z.ltb_spec r0 0) as [Hneg | Hok].
    - rewrite (main_not_connected argv0 opts w r0 d0 Hconn Hneg).
      exists []. split; [cbn; now rewrite app_nil_r | constructor].
    - rewrite (main_connected argv0 opts w r0 d0 Hconn Hok).
      destruct (parse_cmdline_from_continues argv0 opts (-1) (connected d0 w))
        as (_ & _ & sent & Hcalls & Hall).
      exists sent. split; [exact Hcalls | exact Hall]. }
  destruct Hsent as (sent & Hcalls & Hall).
  exists sent. repeat split; auto.
  intros a Hin. apply Hdistinct.
  rewrite Forall_forall in Hall. specialize (Hall _ Hin).
  change (to_u8 DBUS_C_RESUME) with (fst (to_u8 DBUS_C_RESUME, a)).
  now apply in_map.
Qed.

(** *** Status *)

(** A successful Status exchange: the flag printed is decided by the
    first byte of the reply alone. *)
Lemma handle_cmd_status_success w n d' st buf :
  post_request bus (to_u8 DBUS_C_STATUS) [] (daemon w) = (inr n, d') ->
  read_reply n = inr (st, buf) ->
  (1 <= List.length buf)%nat ->
  u8 st = DBUS_SUCCESS ->
  handle_cmd_status bus strerror w =
    (Return (- DBUS_SUCCESS),
     mk_world d'
       (stdout w ++ ("Daemon Status: "
                     ++ (if u8 (nth 0 buf x00) =? STATUS_ACTIVE
                         then "Active" else "Suspended")
                     ++ nl))
       (stderr w) (calls w ++ [(to_u8 DBUS_C_STATUS, [])])%list
       (bus_refs w) (msg_refs w)).
Proof.
  intros Hpost Hread Hlen Hst.
  unfold handle_cmd_status, bind.
  rewrite (send_dbus_msg_received (set_cmd (to_u8 DBUS_C_STATUS) msg_zero)
             (mk_msg x00 1 (calloc 1)) w n d' st buf Hpost Hread).
  cbn [num_args].
  assert (Hge : (List.length buf <? 1)%nat = false) by now apply Nat.ltb_ge.
  rewrite Hge.
  cbn [Z.ltb Z.compare cmd set_cmd set_args args num_args].
  rewrite Hst, Z.eqb_refl. cbn [negb].
  unfold printf, ret. cbn [daemon stdout stderr calls bus_refs msg_refs].
  destruct buf as [| b rest]; [cbn in Hlen; lia |].
  reflexivity.
Qed.

(** C6.  A process given the Status option, whose connection succeeds
    and whose exchange brings back the status Success (numbered 0) with
    a payload of one byte, ends with code 0 and has printed a line
    containing "Active" when the byte is 0, the encoding of Active, and
    a line containing "Suspended" when the byte is 1. *)
Theorem status_reports_active_or_suspended argv0 optarg w r0 d0 n d1 st b :
  DBUS_SUCCESS = 0 ->
  STATUS_ACTIVE = 0 ->
  sd_bus_default_system bus (daemon w) = (r0, d0) ->
  0 <= r0 ->
  post_request bus (to_u8 DBUS_C_STATUS) [] d0 = (inr n, d1) ->
  read_reply n = inr (st, [b]) ->
  u8 st = DBUS_SUCCESS ->
  let run := main bus strerror argv0 [("s"%char, optarg)] w in
  (b = x00 -> exit_code run = 0 /\ prints w (snd run) "Active") /\
  (b = x01 -> exit_code run = 0 /\ prints w (snd run) "Suspended").
Proof.
  intros Hzero Hactive Hconn Hr0 Hpost Hread Hst run.
  destruct (main_one_option argv0 "s"%char optarg w r0 d0 Hconn Hr0)
    as [Hcode Hworld].
  subst run. rewrite Hcode, Hworld.
  change (dispatch bus strerror argv0 "s" optarg)
    with (handle_cmd_status bus strerror).
  rewrite (handle_cmd_status_success (connected d0 w) n d1 st [b]
             Hpost Hread (le_n 1) Hst).
  cbn [exit_code fst snd stdout nth]. rewrite Hzero, Hactive.
  split; intros ->; (split; [reflexivity |]); eexists;
    (split; [reflexivity | reflexivity]).
Qed.

(** C10.  After a successful Status exchange with status Success, every
    first payload byte other than the encoding of Active makes the
    handler print "Daemon Status: Suspended"; the handler returns the
    same code as for Active and writes nothing to the error stream. *)
Theorem handle_cmd_status_suspended_by_default w n d' st buf :
  post_request bus (to_u8 DBUS_C_STATUS) [] (daemon w) = (inr n, d') ->
  read_reply n = inr (st, buf) ->
  (1 <= List.length buf)%nat ->
  u8 st = DBUS_SUCCESS ->
  u8 (nth 0 buf x00) <> STATUS_ACTIVE ->
  exists w',
    handle_cmd_status bus strerror w = (Return (- DBUS_SUCCESS), w') /\
    stdout w' = stdout w ++ ("Daemon Status: Suspended" ++ nl) /\
    stderr w' = stderr w.
Proof.
  intros Hpost Hread Hlen Hst Hother.
  rewrite (handle_cmd_status_success w n d' st buf Hpost Hread Hlen Hst).
  eexists. split; [reflexivity |].
  cbn [stdout stderr].
  apply Z.eqb_neq in Hother. rewrite Hother. split; reflexivity.
Qed.

(** *** Exit codes *)

Lemma dispatch_code argv0 opt optarg w c k :
  DBUS_SUCCESS = 0 -> 0 < E_DBUS_INTERNAL ->
  request_shape opt = Some (c, k) ->
  code_of_exchange bus (to_u8 c) k (daemon w)
    (exit_code (dispatch bus strerror argv0 opt optarg w)).
Proof.
  intros Hzero Hpos. unfold request_shape, dispatch.
  destruct (opt =? "p")%char;
    [intros [= <- <-]; now apply handle_cmd_ping_code |].
  destruct (opt =? "s")%char;
    [intros [= <- <-]; now apply handle_cmd_status_code |].
  destruct ((opt =? "r")%char || (opt =? "f")%char);
    [intros [= <- <-]; now apply handle_cmd_reset_code |].
  destruct (opt =? "u")%char;
    [intros [= <- <-]; now apply handle_cmd_suspend_code |].
  destruct (opt =? "e")%char eqn:He.
  - apply Ascii.eqb_eq in He. subst opt. discriminate.
  - destruct (opt =? "m")%char;
      [intros [= <- <-]; now apply handle_cmd_modified_code | discriminate].
Qed.

(** C8, as amended.  For a process given exactly one option, with
    Success numbered 0 and positive [E_DBUS_INTERNAL] and [E_DBUS_INVAL]:
    if the connection fails the process ends with the negative code of
    the connection attempt; the Resume option with an argument other
    than "0" and "1" ends it with [-E_DBUS_INVAL]; and for each of the
    other five commands the exit
    code is the negated status byte of the reply (0 for Success,
    negative otherwise) when the exchange is completed, that is when a
    reply with at least the expected number of argument bytes was read,
    and a negative client-local code otherwise: the code of the failing
    bus call, or [-E_DBUS_INTERNAL] for a reply that is too short. *)
Theorem main_exit_code argv0 opt optarg w r0 d0 :
  DBUS_SUCCESS = 0 ->
  0 < E_DBUS_INTERNAL ->
  0 < E_DBUS_INVAL ->
  sd_bus_default_system bus (daemon w) = (r0, d0) ->
  let code := exit_code (main bus strerror argv0 [(opt, optarg)] w) in
  (r0 < 0 -> code = r0) /\
  (0 <= r0 -> opt = "e"%char ->
   optarg <> Some "0" -> optarg <> Some "1" ->
   code = - E_DBUS_INVAL /\ code < 0) /\
  (0 <= r0 -> forall c k,
      request_shape opt = Some (c, k) ->
      code_of_exchange bus (to_u8 c) k d0 code).
Proof.
  intros Hzero Hpos Hinval Hconn code. subst code.
  split; [| split].
  - intros Hneg.
    now rewrite (main_not_connected argv0 _ w r0 d0 Hconn Hneg).
  - intros Hr0 -> _ _.
    destruct (main_one_option argv0 "e"%char optarg w r0 d0 Hconn Hr0)
      as [Hcode _].
    rewrite Hcode.
    change (dispatch bus strerror argv0 "e" optarg)
      with (handle_cmd_resume bus strerror optarg).
    rewrite handle_cmd_resume_inval. cbn [exit_code fst]. lia.
  - intros Hr0 c k Hshape.
    destruct (main_one_option argv0 opt optarg w r0 d0 Hconn Hr0)
      as [Hcode _].
    rewrite Hcode.
    exact (dispatch_code argv0 opt optarg (connected d0 w) c k
             Hzero Hpos Hshape).
Qed.

(** *** The connection *)

(** C9, as amended.  Whatever the options and whatever the bus does, the
    program never releases the connection it acquires at startup: when
    [sd_bus_default_system] succeeds the process ends, by returning from
    [main] or through [exit], holding exactly one connection more than
    it started with, and when it fails the count is unchanged.  Only the
    messages of the exchanges are released: their count is back to its
    initial value at the end. *)
Theorem main_keeps_connection argv0 opts (w : world D) :
  bus_refs (snd (main bus strerror argv0 opts w)) =
    (if fst (sd_bus_default_system bus (daemon w)) <? 0
     then bus_refs w else S (bus_refs w)) /\
  msg_refs (snd (main bus strerror argv0 opts w)) = msg_refs w.
Proof.
  destruct (sd_bus_default_system bus (daemon w)) as [r0 d0] eqn:Hconn.
  cbn [fst].
  destruct (Z.ltb_spec r0 0) as [Hneg | Hok].
  - rewrite (main_not_connected argv0 opts w r0 d0 Hconn Hneg).
    split; reflexivity.
  - rewrite (main_connected argv0 opts w r0 d0 Hconn Hok).
    destruct (parse_cmdline_from_continues argv0 opts (-1) (connected d0 w))
      as (Hbus & Hmsg & _).
    split; [exact Hbus | exact Hmsg].
Qed.

End Properties.

(** ** The properties on concrete runs *)

(** The header numbers the five status codes differently. *)
Lemma mboxd_header_codes_distinct :
  NoDup [@DBUS_SUCCESS mboxd_header; @E_DBUS_INTERNAL mboxd_header;
         @E_DBUS_INVAL mboxd_header; @E_DBUS_REJECTED mboxd_header;
         @E_DBUS_HARDWARE mboxd_header].
Proof.
  repeat constructor; cbn; intuition discriminate.
Defined.

Lemma parse_error_total_witness :
  parse_error (hdr := mboxd_header) 3 = "Failed - Request Rejected by Daemon"
  /\ parse_error (hdr := mboxd_header) 200 = "Failed - Unknown Error".
Proof.
  destruct (parse_error_total (hdr := mboxd_header) mboxd_header_codes_distinct)
    as (_ & _ & _ & Hrejected & _ & Hunknown).
  split; [exact Hrejected |].
  apply Hunknown. cbn. intuition discriminate.
Defined.

(** A Status exchange answered without any argument byte. *)
Lemma send_dbus_msg_insufficient_args_witness :
  exists resp' w',
    send_dbus_msg (hdr := mboxd_header)
        (scripted_bus 0 (reply_of x00 [])) strerror_stub
        (mk_msg x01 0 []) (mk_msg x00 1 [x00]) world0
      = (Return (-1, resp'), w')
    /\ args resp' = [x00]
    /\ stderr w' = "Command returned insufficient response args" ++ nl.
Proof.
  destruct (send_dbus_msg_insufficient_args (hdr := mboxd_header)
              (scripted_bus 0 (reply_of x00 [])) strerror_stub
              (mk_msg x01 0 []) (mk_msg x00 1 [x00]) world0
              (reply_of x00 []) tt x00 [])
    as (_ & resp' & w' & Hrun & _ & Hargs & _ & Herr).
  - cbn. lia.
  - reflexivity.
  - reflexivity.
  - cbn. lia.
  - exists resp', w'. repeat split; assumption.
Defined.

(** A Status exchange answered with three argument bytes: one is kept. *)
Lemma send_dbus_msg_copies_declared_witness :
  exists resp' w',
    send_dbus_msg (hdr := mboxd_header)
        (scripted_bus 0 (reply_of x00 [x01; x02; x03])) strerror_stub
        (mk_msg x01 0 []) (mk_msg x00 1 [x00]) world0
      = (Return (0, resp'), w')
    /\ args resp' = [x01].
Proof.
  destruct (send_dbus_msg_copies_declared (hdr := mboxd_header)
              (scripted_bus 0 (reply_of x00 [x01; x02; x03])) strerror_stub
              (mk_msg x01 0 []) (mk_msg x00 1 [x00]) world0
              (reply_of x00 [x01; x02; x03]) tt x00 [x01; x02; x03])
    as (resp' & w' & Hrun & _ & _ & _ & _ & Hexact & _).
  - reflexivity.
  - reflexivity.
  - cbn. lia.
  - exists resp', w'. split; [exact Hrun |].
    apply Hexact. reflexivity.
Defined.

Lemma handle_cmd_resume_rejects_other_witness :
  handle_cmd_resume (hdr := mboxd_header)
      (scripted_bus 0 (reply_of x00 [])) strerror_stub (Some "2") world0
    = (Return (-2), world0)
  /\ handle_cmd_resume (hdr := mboxd_header)
      (scripted_bus 0 (reply_of x00 [])) strerror_stub None world0
    = (Return (-2), world0).
Proof.
  split.
  - apply (handle_cmd_resume_rejects_other (hdr := mboxd_header)
             (scripted_bus 0 (reply_of x00 [])) strerror_stub (Some "2") world0);
      discriminate.
  - apply (handle_cmd_resume_rejects_other (hdr := mboxd_header)
             (scripted_bus 0 (reply_of x00 [])) strerror_stub None world0);
      discriminate.
Defined.

(** Ping, Resume with "1", then Status: two requests are posted, none
    of them a Resume request. *)
Lemma resume_never_sent_witness :
  exists sent,
    calls (snd (main (hdr := mboxd_header)
                  (scripted_bus 0 (reply_of x00 [x00])) strerror_stub "mboxctl"
                  [("p"%char, None); ("e"%char, Some "1"); ("s"%char, None)]
                  world0))
      = sent
    /\ forall a, ~ In (x04, a) sent.
Proof.
  destruct (resume_never_sent (hdr := mboxd_header)
              (scripted_bus 0 (reply_of x00 [x00])) strerror_stub)
    as (_ & _ & Hmain).
  - cbn. intuition discriminate.
  - destruct (Hmain "mboxctl"
                [("p"%char, None); ("e"%char, Some "1"); ("s"%char, None)]
                world0) as (sent & Hcalls & _ & Hnone).
    exists sent. split; [exact Hcalls | exact Hnone].
Defined.

(** Status against a daemon that reports Active, and against one that
    reports Suspended. *)
Lemma status_reports_active_or_suspended_witness :
  (exit_code (main (hdr := mboxd_header)
                (scripted_bus 0 (reply_of x00 [x00])) strerror_stub "mboxctl"
                [("s"%char, None)] world0) = 0
   /\ prints world0
        (snd (main (hdr := mboxd_header)
                (scripted_bus 0 (reply_of x00 [x00])) strerror_stub "mboxctl"
                [("s"%char, None)] world0))
        "Active")
  /\ prints world0
       (snd (main (hdr := mboxd_header)
               (scripted_bus 0 (reply_of x00 [x01])) strerror_stub "mboxctl"
               [("s"%char, None)] world0))
       "Suspended".
Proof.
  split.
  - apply (status_reports_active_or_suspended (hdr := mboxd_header)
             (scripted_bus 0 (reply_of x00 [x00])) strerror_stub "mboxctl" None
             world0 0 tt (reply_of x00 [x00]) tt x00 x00);
      reflexivity.
  - apply (status_reports_active_or_suspended (hdr := mboxd_header)
             (scripted_bus 0 (reply_of x00 [x01])) strerror_stub "mboxctl" None
             world0 0 tt (reply_of x00 [x01]) tt x00 x01);
      reflexivity.
Defined.

(** Status against a daemon whose payload byte is 7. *)
Lemma handle_cmd_status_suspended_by_default_witness :
  exists w',
    handle_cmd_status (hdr := mboxd_header)
        (scripted_bus 0 (reply_of x00 [x07])) strerror_stub world0
      = (Return 0, w')
    /\ stdout w' = "Daemon Status: Suspended" ++ nl
    /\ stderr w' = "".
Proof.
  apply (handle_cmd_status_suspended_by_default (hdr := mboxd_header)
           (scripted_bus 0 (reply_of x00 [x07])) strerror_stub world0
           (reply_of x00 [x07]) tt x00 [x07]).
  - reflexivity.
  - reflexivity.
  - cbn. lia.
  - reflexivity.
  - cbn. discriminate.
Defined.

(** C7 on the code: a process given Resume with "1", against a daemon
    that would answer RejectedByDaemon (3), returns [-E_DBUS_INVAL]
    (-2) after connecting; no request has been posted and nothing has
    been printed. *)
Theorem resume_modified_not_sent :
  main (hdr := mboxd_header)
      (scripted_bus 0 (reply_of x03 [])) strerror_stub "mboxctl"
      [("e"%char, Some "1")] world0
    = (Return (-2), mk_world tt "" "" [] 1 0).
Proof. reflexivity. Qed.

(** C8 as stated fails: a process given the Status option posts its
    request, the daemon answers with status Success and no argument
    byte, and the process ends with [-E_DBUS_INTERNAL] (-1), not 0. *)
Lemma status_short_reply_exit_code :
  calls (snd (main (hdr := mboxd_header)
                (scripted_bus 0 (reply_of x00 [])) strerror_stub "mboxctl"
                [("s"%char, None)] world0))
    = [(x01, [])]
  /\ read_reply (reply_of x00 []) = inr (x00, [])
  /\ u8 x00 = @DBUS_SUCCESS mboxd_header
  /\ exit_code (main (hdr := mboxd_header)
                  (scripted_bus 0 (reply_of x00 [])) strerror_stub "mboxctl"
                  [("s"%char, None)] world0)
     = -1.
Proof. repeat split. Qed.

(** Ping against a daemon that answers HardwareError; Status against one
    that answers too little. *)
Lemma main_exit_code_witness :
  exit_code (main (hdr := mboxd_header)
               (scripted_bus 0 (reply_of x04 [])) strerror_stub "mboxctl"
               [("p"%char, None)] world0) = -4
  /\ exit_code (main (hdr := mboxd_header)
                  (scripted_bus 0 (reply_of x00 [])) strerror_stub "mboxctl"
                  [("s"%char, None)] world0) = -1.
Proof.
  split.
  - destruct (main_exit_code (hdr := mboxd_header)
                (scripted_bus 0 (reply_of x04 [])) strerror_stub "mboxctl"
                "p"%char None world0 0 tt)
      as (_ & _ & Hcmd);
      [reflexivity | cbn; lia | cbn; lia | reflexivity |].
    specialize (Hcmd (Z.le_refl 0) 0 0%nat eq_refl).
    destruct Hcmd as (Hcode & _). exact Hcode.
  - destruct (main_exit_code (hdr := mboxd_header)
                (scripted_bus 0 (reply_of x00 [])) strerror_stub "mboxctl"
                "s"%char None world0 0 tt)
      as (_ & _ & Hcmd);
      [reflexivity | cbn; lia | cbn; lia | reflexivity |].
    specialize (Hcmd (Z.le_refl 0) 1 1%nat eq_refl).
    destruct Hcmd as (Hcode & _). exact Hcode.
Defined.

(** C9 as stated fails: on a successful Ping, on a rejected Resume
    argument, on a refused call and on leaving through [usage] alike,
    the process that started without any connection ends holding one. *)
Lemma exits_holding_connection :
  bus_refs world0 = 0%nat
  /\ main (hdr := mboxd_header)
       (scripted_bus 0 (reply_of x00 [])) strerror_stub "mboxctl"
       [("p"%char, None)] world0
     = (Return 0, mk_world tt ("Ping: Success" ++ nl) "" [(x00, [])] 1 0)
  /\ main (hdr := mboxd_header)
       (scripted_bus 0 (reply_of x00 [])) strerror_stub "mboxctl"
       [("e"%char, Some "2")] world0
     = (Return (-2), mk_world tt "" "" [] 1 0)
  /\ main (hdr := mboxd_header) refusing_bus strerror_stub "mboxctl"
       [("p"%char, None)] world0
     = (Return (-111),
        mk_world tt ""
          (("Failed to post message: error" ++ nl)
           ++ ("Failed to send ping command" ++ nl))
          [(x00, [])] 1 0)
  /\ main (hdr := mboxd_header)
       (scripted_bus 0 (reply_of x00 [])) strerror_stub "mboxctl"
       [("h"%char, None)] world0
     = (Exit 0, mk_world tt (USAGE "mboxctl") "" [] 1 0).
Proof. repeat split. Qed.

(** ** common.c: integers in memory *)

Lemma u8_to_u8 (z : Z) : u8 (to_u8 z) = z mod 256.
Proof.
  unfold u8, to_u8.
  assert (Hrange : 0 <= z mod 256 < 256) by (apply Z.mod_pos_bound; lia).
  pose proof (Byte.to_of_N_option_map (Z.to_N (z mod 256))) as Hmap.
  assert (Hle : (Z.to_N (z mod 256) <=? 255)%N = true) by (apply N.leb_le; lia).
  rewrite Hle in Hmap.
  destruct (Byte.of_N (Z.to_N (z mod 256))) as [b |]; [| discriminate Hmap].
  cbn in Hmap. injection Hmap as Hb. rewrite Hb. lia.
Qed.

Lemma u8_range (b : uint8_t) : 0 <= u8 b < 256.
Proof.
  unfold u8. pose proof (Byte.to_N_bounded b). lia.
Qed.

Lemma to_u8_u8 (b : uint8_t) : to_u8 (u8 b) = b.
Proof.
  unfold to_u8. rewrite Z.mod_small by apply u8_range.
  unfold u8. rewrite N2Z.id, Byte.of_to_N. reflexivity.
Qed.

Lemma to_u8_mod (z : Z) : to_u8 (z mod 256) = to_u8 z.
Proof.
  unfold to_u8. rewrite Z.mod_mod by lia. reflexivity.
Qed.

Lemma length_le_bytes (n : nat) (v : Z) : List.length (le_bytes n v) = n.
Proof.
  revert v. induction n as [| k IH]; intros v; cbn; [| rewrite IH]; reflexivity.
Qed.

(** Reading back the [n] low-order bytes of [v] gives [v] modulo
    [256 ^ n]. *)
Lemma le_value_le_bytes (n : nat) (v : Z) :
  le_value (le_bytes n v) = v mod 256 ^ Z.of_nat n.
Proof.
  revert v. induction n as [| k IH]; intros v.
  - cbn. now rewrite Z.mod_1_r.
  - cbn [le_bytes le_value]. rewrite u8_to_u8, IH.
    rewrite Nat2Z.inj_succ, Z.pow_succ_r by lia.
    rewrite Z.rem_mul_r by lia. reflexivity.
Qed.

Lemma le_value_range (bs : list uint8_t) :
  0 <= le_value bs < 256 ^ Z.of_nat (List.length bs).
Proof.
  induction bs as [| b rest IH].
  - cbn. lia.
  - cbn [le_value List.length]. rewrite Nat2Z.inj_succ, Z.pow_succ_r by lia.
    pose proof (u8_range b). lia.
Qed.

(** Writing out the value bytes denote gives the bytes back. *)
Lemma le_bytes_le_value (bs : list uint8_t) :
  le_bytes (List.length bs) (le_value bs) = bs.
Proof.
  induction bs as [| b rest IH]; [reflexivity |].
  cbn [le_value List.length le_bytes].
  pose proof (u8_range b) as Hb.
  f_equal.
  - rewrite <- (to_u8_mod (u8 b + 256 * le_value rest)).
    replace ((u8 b + 256 * le_value rest) mod 256) with (u8 b).
    + apply to_u8_u8.
    + apply (Z.mod_unique _ 256 (le_value rest)); lia.
  - replace ((u8 b + 256 * le_value rest) / 256) with (le_value rest);
      [exact IH |].
    apply (Z.div_unique _ 256 _ (u8 b)); lia.
Qed.

Lemma length_object_bytes host n v :
  List.length (object_bytes host n v) = n.
Proof.
  destruct host; cbn; [| rewrite length_rev]; apply length_le_bytes.
Qed.

Lemma object_value_bytes host n v :
  object_value host (object_bytes host n v) = v mod 256 ^ Z.of_nat n.
Proof.
  destruct host; cbn; [| rewrite rev_involutive]; apply le_value_le_bytes.
Qed.

Lemma object_bytes_value host bs :
  object_bytes host (List.length bs) (object_value host bs) = bs.
Proof.
  destruct host; cbn.
  - apply le_bytes_le_value.
  - rewrite <- (length_rev bs), le_bytes_le_value. apply rev_involutive.
Qed.

Lemma object_value_range host bs :
  0 <= object_value host bs < 256 ^ Z.of_nat (List.length bs).
Proof.
  destruct host; cbn; [| rewrite <- (length_rev bs)]; apply le_value_range.
Qed.

(** Storing an object of [n] bytes into a buffer that has room for it:
    the buffer starts with the object and is otherwise as before. *)
Lemma memcpy_object (dst obj : list uint8_t) (n : nat) :
  List.length obj = n ->
  (n <= List.length dst)%nat ->
  firstn n (memcpy dst obj n) = obj /\
  skipn n (memcpy dst obj n) = skipn n dst /\
  List.length (memcpy dst obj n) = List.length dst.
Proof.
  intros Hobj Hdst. unfold memcpy.
  assert (Hfirst : firstn n obj = obj) by (rewrite <- Hobj; apply firstn_all).
  rewrite Hfirst.
  repeat split.
  - rewrite firstn_app, Hobj, Nat.sub_diag. cbn [firstn].
    rewrite app_nil_r. exact Hfirst.
  - rewrite skipn_app, Hobj, Nat.sub_diag. cbn [skipn].
    rewrite <- Hobj at 1. now rewrite skipn_all.
  - rewrite length_app, length_skipn, Hobj. lia.
Qed.

Section CommonProperties.

Variable host : byte_order.

(** X1.  In a buffer of at least two bytes [put_u16] succeeds; it
    changes the first two bytes only, and [get_u16] then reads the value
    written, reduced modulo 65536.  Conversely what [get_u16] reads is
    below 65536, and writing it back leaves the buffer as it was. *)
Theorem u16_round_trip (ptr : list uint8_t) (val : Z) :
  (2 <= List.length ptr)%nat ->
  (exists ptr',
      put_u16 host ptr val = Some ptr' /\
      get_u16 host ptr' = Some (val mod 65536) /\
      List.length ptr' = List.length ptr /\
      skipn 2 ptr' = skipn 2 ptr) /\
  (exists v,
      get_u16 host ptr = Some v /\
      0 <= v < 65536 /\
      put_u16 host ptr v = Some ptr).
Proof.
  intros Hlen.
  assert (Hfit : (List.length ptr <? 2)%nat = false) by now apply Nat.ltb_ge.
  unfold put_u16, get_u16. rewrite Hfit.
  split.
  - destruct (memcpy_object ptr (object_bytes host 2 val) 2
                (length_object_bytes host 2 val) Hlen)
      as (Hfirst & Hskip & Hsame).
    eexists. split; [reflexivity |].
    rewrite Hsame, Hfit, Hfirst, object_value_bytes.
    repeat split; assumption.
  - eexists. split; [reflexivity |].
    assert (Htwo : List.length (firstn 2 ptr) = 2%nat)
      by (rewrite length_firstn; lia).
    split.
    + pose proof (object_value_range host (firstn 2 ptr)) as Hr.
      rewrite Htwo in Hr. exact Hr.
    + f_equal. unfold memcpy.
      pose proof (object_bytes_value host (firstn 2 ptr)) as Hobj.
      rewrite Htwo in Hobj. rewrite Hobj.
      rewrite firstn_firstn. apply firstn_skipn.
Qed.

(** X2.  The same for [put_u32] and [get_u32], with four bytes and
    values below 4294967296. *)
Theorem u32_round_trip (ptr : list uint8_t) (val : Z) :
  (4 <= List.length ptr)%nat ->
  (exists ptr',
      put_u32 host ptr val = Some ptr' /\
      get_u32 host ptr' = Some (val mod 4294967296) /\
      List.length ptr' = List.length ptr /\
      skipn 4 ptr' = skipn 4 ptr) /\
  (exists v,
      get_u32 host ptr = Some v /\
      0 <= v < 4294967296 /\
      put_u32 host ptr v = Some ptr).
Proof.
  intros Hlen.
  assert (Hfit : (List.length ptr <? 4)%nat = false) by now apply Nat.ltb_ge.
  unfold put_u32, get_u32. rewrite Hfit.
  split.
  - destruct (memcpy_object ptr (object_bytes host 4 val) 4
                (length_object_bytes host 4 val) Hlen)
      as (Hfirst & Hskip & Hsame).
    eexists. split; [reflexivity |].
    rewrite Hsame, Hfit, Hfirst, object_value_bytes.
    repeat split; assumption.
  - eexists. split; [reflexivity |].
    assert (Hfour : List.length (firstn 4 ptr) = 4%nat)
      by (rewrite length_firstn; lia).
    split.
    + pose proof (object_value_range host (firstn 4 ptr)) as Hr.
      rewrite Hfour in Hr. exact Hr.
    + f_equal. unfold memcpy.
      pose proof (object_bytes_value host (firstn 4 ptr)) as Hobj.
      rewrite Hfour in Hobj. rewrite Hobj.
      rewrite firstn_firstn. apply firstn_skipn.
Qed.

(** X3.  A 16-bit read at the address of a 32-bit value written by
    [put_u32] sees its low half on a little-endian host and its high
    half on a big-endian one. *)
Theorem u32_then_u16 (ptr : list uint8_t) (val : Z) :
  (4 <= List.length ptr)%nat ->
  exists ptr',
    put_u32 host ptr val = Some ptr' /\
    get_u16 host ptr' =
      Some (match host with
            | LittleEndian => val mod 65536
            | BigEndian => (val / 65536) mod 65536
            end).
Proof.
  intros Hlen.
  assert (Hfit : (List.length ptr <? 4)%nat = false) by now apply Nat.ltb_ge.
  unfold put_u32, get_u16. rewrite Hfit.
  destruct (memcpy_object ptr (object_bytes host 4 val) 4
              (length_object_bytes host 4 val) Hlen)
    as (Hfirst & _ & Hsame).
  eexists. split; [reflexivity |].
  assert (Hfit2 : (List.length (memcpy ptr (object_bytes host 4 val) 4) <? 2)%nat
                  = false) by (apply Nat.ltb_ge; lia).
  rewrite Hfit2. f_equal.
  assert (Hhead : firstn 2 (memcpy ptr (object_bytes host 4 val) 4)
                  = firstn 2 (object_bytes host 4 val)).
  { rewrite <- Hfirst at 2. rewrite firstn_firstn. reflexivity. }
  rewrite Hhead.
  destruct host; cbn [object_bytes object_value].
  - change (firstn 2 (le_bytes 4 val)) with (le_bytes 2 val).
    apply (le_value_le_bytes 2).
  - change (rev (firstn 2 (rev (le_bytes 4 val))))
      with (le_bytes 2 (val / 256 / 256)).
    rewrite (le_value_le_bytes 2), Z.div_div by lia. reflexivity.
Qed.

End CommonProperties.

(** ** common.c: finding the flash partition *)

Lemma append_assoc_string (a b c : string) : (a ++ b) ++ c = a ++ (b ++ c).
Proof.
  induction a as [| x a IH]; cbn; [| rewrite IH]; reflexivity.
Qed.

Lemma length_append_string (a b : string) :
  String.length (a ++ b) = (String.length a + String.length b)%nat.
Proof.
  induction a as [| x a IH]; cbn; [| rewrite IH]; reflexivity.
Qed.

(** *** Searching without regard to letter case *)

Lemma caseprefix_spec (needle hay : string) :
  caseprefix needle hay = true <->
  exists w b, hay = w ++ b /\ lower w = lower needle.
Proof.
  revert hay. induction needle as [| a needle IH]; intros hay.
  - split; [| reflexivity]. intros _. exists EmptyString, hay. now split.
  - destruct hay as [| c hay]; cbn [caseprefix].
    + split; [discriminate |].
      intros (w & b & Hhay & Hlow).
      destruct w as [| x w]; [discriminate Hlow | discriminate Hhay].
    + rewrite andb_true_iff, Ascii.eqb_eq, IH.
      split.
      * intros (Hac & w & b & Hhay & Hlow).
        exists (String c w), b. cbn. now rewrite Hhay, Hlow, Hac.
      * intros (w & b & Hhay & Hlow).
        destruct w as [| x w]; [discriminate Hlow |].
        cbn in Hhay, Hlow. injection Hhay as Hc Hhay.
        injection Hlow as Hx Hlow. subst x.
        split; [now symmetry | now exists w, b].
Qed.

Lemma strcasestr_spec (hay needle : string) :
  (exists r, strcasestr hay needle = Some r) <->
  exists a w b, hay = a ++ w ++ b /\ lower w = lower needle.
Proof.
  split.
  - induction hay as [| c hay IH]; cbn [strcasestr].
    + destruct (caseprefix needle EmptyString) eqn:Hp.
      * intros _. apply caseprefix_spec in Hp.
        destruct Hp as (w & b & Hhay & Hlow).
        now exists EmptyString, w, b.
      * intros (r & Hr). discriminate Hr.
    + destruct (caseprefix needle (String c hay)) eqn:Hp.
      * intros _. apply caseprefix_spec in Hp.
        destruct Hp as (w & b & Hhay & Hlow).
        now exists EmptyString, w, b.
      * intros Hr. destruct (IH Hr) as (a & w & b & Hhay & Hlow).
        exists (String c a), w, b. cbn. now rewrite Hhay.
  - intros (a & w & b & Hhay & Hlow). subst hay.
    induction a as [| c a IH].
    + assert (Hp : caseprefix needle (w ++ b) = true)
        by (apply caseprefix_spec; now exists w, b).
      cbn [append]. destruct (w ++ b); cbn [strcasestr]; rewrite Hp; eauto.
    + cbn [append strcasestr].
      destruct (caseprefix needle (String c (a ++ w ++ b))); eauto.
Qed.

(** X4.  [is_pnor_part] holds of exactly the strings in which the four
    letters p, n, o, r occur in a row, each in either letter case. *)
Theorem is_pnor_part_any_case (str : string) :
  is_pnor_part str = true <->
  exists a w b, str = a ++ w ++ b /\ lower w = "pnor".
Proof.
  unfold is_pnor_part.
  change "pnor" with (lower "pnor") at 2.
  rewrite <- strcasestr_spec.
  destruct (strcasestr str "pnor") as [r |].
  - split; [eauto | reflexivity].
  - split; [discriminate |]. intros (r & Hr). discriminate Hr.
Qed.

(** *** Reading lines *)

Lemma terminated_inv (c : ascii) (rest : string) :
  terminated (String c rest) = true ->
  (rest = EmptyString /\ c = newline) \/
  (rest <> EmptyString /\ c <> newline /\ c <> "000"%char /\
   terminated rest = true).
Proof.
  destruct rest as [| c' rest]; cbn [terminated].
  - intros H. apply Ascii.eqb_eq in H. now left.
  - rewrite !andb_true_iff, !negb_true_iff, !Ascii.eqb_neq.
    intros ((Hn & Hz) & Ht). right. repeat split; auto. discriminate.
Qed.

Lemma fgets_from_terminated (l rest : string) (room : nat) :
  terminated l = true ->
  (String.length l <= room)%nat ->
  fgets_from room (l ++ rest) = (l, rest).
Proof.
  revert room. induction l as [| c l IH]; intros room Ht Hlen.
  - discriminate Ht.
  - destruct room as [| room]; [cbn in Hlen; lia |].
    cbn [append fgets_from].
    destruct (terminated_inv c l Ht) as [(-> & ->) | (Hne & Hn & _ & Hl)].
    + reflexivity.
    + apply Ascii.eqb_neq in Hn. rewrite Hn.
      rewrite (IH room Hl) by (cbn in Hlen; lia). reflexivity.
Qed.

Lemma cstr_terminated (l : string) : terminated l = true -> cstr l = l.
Proof.
  induction l as [| c l IH]; [reflexivity |]. intros Ht.
  destruct (terminated_inv c l Ht) as [(-> & ->) | (Hne & _ & Hz & Hl)].
  - reflexivity.
  - cbn [cstr]. apply Ascii.eqb_neq in Hz. rewrite Hz. now rewrite IH.
Qed.

Lemma last_char_terminated (l : string) :
  terminated l = true -> last_char l = Some newline.
Proof.
  induction l as [| c l IH]; [discriminate |]. intros Ht.
  destruct (terminated_inv c l Ht) as [(-> & ->) | (Hne & _ & _ & Hl)].
  - reflexivity.
  - cbn [last_char]. destruct l; [contradiction | now apply IH].
Qed.

Lemma complete_line_inv (l : string) :
  complete_line l = true ->
  terminated l = true /\ (1 <= String.length l <= 254)%nat.
Proof.
  unfold complete_line. rewrite andb_true_iff, Nat.leb_le.
  intros (Ht & Hlen). split; [exact Ht |].
  destruct l; [discriminate Ht | cbn in *; lia].
Qed.

Lemma fgets_complete_line (l rest : string) :
  complete_line l = true ->
  fgets 255 (l ++ rest) = Some (l, rest).
Proof.
  intros Hl. destruct (complete_line_inv l Hl) as (Ht & Hlen).
  unfold fgets.
  rewrite (fgets_from_terminated l rest (255 - 1) Ht) by (cbn; lia).
  destruct l; [discriminate Ht | reflexivity].
Qed.

(** One round of the loop on a complete line. *)
Lemma scan_mtd_complete_line (fuel : nat) (l rest : string) :
  complete_line l = true ->
  scan_mtd (S fuel) (l ++ rest) =
    if is_pnor_part l then
      match strchr l ":" with
      | None => Result None
      | Some pos => Result (Some (substring 0 pos l))
      end
    else scan_mtd fuel rest.
Proof.
  intros Hl. destruct (complete_line_inv l Hl) as (Ht & _).
  cbn [scan_mtd]. rewrite (fgets_complete_line l rest Hl).
  cbv zeta. rewrite (cstr_terminated l Ht), (last_char_terminated l Ht).
  reflexivity.
Qed.

Lemma length_text_of (lines : list string) :
  Forall (fun l => complete_line l = true) lines ->
  (List.length lines <= String.length (text_of lines))%nat.
Proof.
  induction 1 as [| l lines Hl _ IH]; cbn [text_of List.length]; [lia |].
  rewrite length_append_string.
  destruct (complete_line_inv l Hl) as (_ & Hlen). lia.
Qed.

Lemma scan_mtd_lines (lines : list string) (fuel : nat) :
  Forall (fun l => complete_line l = true) lines ->
  (List.length lines <= fuel)%nat ->
  scan_mtd fuel (text_of lines) =
    Result (match find is_pnor_part lines with
            | Some l =>
              match strchr l ":" with
              | Some pos => Some (substring 0 pos l)
              | None => None
              end
            | None => None
            end).
Proof.
  intros Hall. revert fuel.
  induction Hall as [| l lines Hl _ IH]; intros fuel Hfuel.
  - destruct fuel; reflexivity.
  - destruct fuel as [| fuel]; [cbn in Hfuel; lia |].
    cbn [text_of find]. rewrite (scan_mtd_complete_line fuel l _ Hl).
    destruct (is_pnor_part l).
    + destruct (strchr l ":"); reflexivity.
    + apply IH. cbn in Hfuel. lia.
Qed.

(** X5.  On a file made of complete lines (each at most 254 characters
    long, its newline included, and free of terminators)
    [get_dev_mtd] looks at the first line that mentions pnor, in any
    letter case: it returns "/dev/" followed by the text before that
    line's first colon, and the null pointer when that line has no
    colon; later lines are not considered.  Without such a line it
    returns the null pointer. *)
Theorem get_dev_mtd_complete_lines (lines : list string) :
  Forall (fun l => complete_line l = true) lines ->
  get_dev_mtd (Some (text_of lines)) =
    Result (match find is_pnor_part lines with
            | Some l => device_of l
            | None => None
            end).
Proof.
  intros Hall. unfold get_dev_mtd, device_of.
  rewrite (scan_mtd_lines lines _ Hall (length_text_of lines Hall)).
  destruct (find is_pnor_part lines) as [l |]; [| reflexivity].
  destruct (strchr l ":"); reflexivity.
Qed.

(** What [fgets] stores from a stream that starts with characters other
    than newlines and terminators is a string that does not end in a
    newline. *)
Lemma fgets_from_plain (room : nat) (s : string) :
  (1 <= room)%nat ->
  s <> EmptyString ->
  plain_prefix room s = true ->
  exists buf f' c,
    fgets_from room s = (buf, f') /\
    cstr buf = buf /\
    last_char buf = Some c /\
    c <> newline.
Proof.
  revert s. induction room as [| room IH]; intros s Hroom Hs Hplain; [lia |].
  destruct s as [| c rest]; [contradiction |].
  cbn [plain_prefix] in Hplain.
  rewrite !andb_true_iff, !negb_true_iff in Hplain.
  destruct Hplain as ((Hn & Hz) & Hrest).
  cbn [fgets_from]. rewrite Hn.
  apply Ascii.eqb_neq in Hn.
  destruct room as [| room'].
  - cbn [fgets_from]. exists (String c EmptyString), rest, c.
    cbn [cstr last_char]. rewrite Hz. auto.
  - destruct rest as [| c' rest'].
    + cbn [fgets_from]. exists (String c EmptyString), EmptyString, c.
      cbn [cstr last_char]. rewrite Hz. auto.
    + destruct (IH (String c' rest')) as (buf & f' & d & Hget & Hc & Hlast & Hd);
        [lia | discriminate | exact Hrest |].
      rewrite Hget. exists (String c buf), f', d.
      cbn [cstr]. rewrite Hz, Hc.
      repeat split; auto.
      cbn [last_char]. destruct buf; [discriminate Hlast | exact Hlast].
Qed.

Lemma scan_mtd_unterminated (fuel : nat) (tail : string) :
  unterminated tail = true ->
  scan_mtd (S fuel) tail = Result None.
Proof.
  unfold unterminated. rewrite andb_true_iff, negb_true_iff, String.eqb_neq.
  intros (Hne & Hplain).
  destruct (fgets_from_plain 254 tail) as (buf & f' & c & Hget & Hc & Hlast & Hn);
    [lia | exact Hne | exact Hplain |].
  cbn [scan_mtd]. unfold fgets.
  destruct tail as [| x tail']; [contradiction |].
  change (255 - 1)%nat with 254%nat. rewrite Hget. cbv zeta.
  rewrite Hc, Hlast. apply Ascii.eqb_neq in Hn. now rewrite Hn.
Qed.

(** X6.  When the complete lines that do not mention pnor are followed
    by text whose first line does not fit (no newline among its first
    254 characters) or is not ended by a newline before the end of the
    file, [get_dev_mtd] returns the null pointer: the loop is left
    there, and whatever that text and the lines after it mention is
    never looked at. *)
Theorem get_dev_mtd_unterminated (lines : list string) (tail : string) :
  Forall (fun l => complete_line l = true) lines ->
  (forall l, In l lines -> is_pnor_part l = false) ->
  unterminated tail = true ->
  get_dev_mtd (Some (text_of lines ++ tail)) = Result None.
Proof.
  intros Hall Hnone Htail.
  assert (Hscan : forall fuel,
             (List.length lines < fuel)%nat ->
             scan_mtd fuel (text_of lines ++ tail) = Result None).
  { induction Hall as [| l lines Hl _ IH]; intros fuel Hfuel.
    - destruct fuel as [| fuel]; [lia |].
      now apply scan_mtd_unterminated.
    - destruct fuel as [| fuel]; [lia |].
      cbn [text_of]. rewrite append_assoc_string.
      rewrite (scan_mtd_complete_line fuel l _ Hl).
      rewrite (Hnone l (or_introl eq_refl)).
      apply IH; [| cbn in Hfuel; lia].
      intros l' Hin. apply Hnone. now right. }
  unfold get_dev_mtd. rewrite Hscan; [reflexivity |].
  rewrite length_append_string.
  pose proof (length_text_of lines Hall).
  assert (1 <= String.length tail)%nat; [| lia].
  destruct tail; [discriminate Htail | cbn; lia].
Qed.

(** *** The loop ends *)

Lemma fgets_from_length (room : nat) (f buf f' : string) :
  fgets_from room f = (buf, f') ->
  (String.length buf + String.length f')%nat = String.length f.
Proof.
  revert f buf f'. induction room as [| room IH]; intros f buf f' Hget.
  - cbn in Hget. injection Hget as <- <-. reflexivity.
  - destruct f as [| c rest]; cbn [fgets_from] in Hget.
    + injection Hget as <- <-. reflexivity.
    + destruct (c =? newline)%char.
      * injection Hget as <- <-. reflexivity.
      * destruct (fgets_from room rest) as [line g] eqn:Hrest.
        injection Hget as <- <-. cbn. now rewrite (IH _ _ _ Hrest).
Qed.

Lemma fgets_from_nonempty (room : nat) (c : ascii) (rest buf f' : string) :
  fgets_from (S room) (String c rest) = (buf, f') ->
  (1 <= String.length buf)%nat.
Proof.
  cbn [fgets_from]. destruct (c =? newline)%char.
  - intros [= <- _]. cbn. lia.
  - destruct (fgets_from room rest). intros [= <- _]. cbn. lia.
Qed.

Lemma fgets_shrinks (f buf f' : string) :
  fgets 255 f = Some (buf, f') ->
  fgets_from 254 f = (buf, f') /\
  (1 <= String.length buf)%nat /\
  (String.length f' < String.length f)%nat.
Proof.
  unfold fgets. destruct f as [| c rest]; [discriminate |].
  change (255 - 1)%nat with 254%nat. intros Hsome.
  assert (Hget : fgets_from 254 (String c rest) = (buf, f')) by congruence.
  pose proof (fgets_from_length _ _ _ _ Hget) as Hlen.
  pose proof (fgets_from_nonempty 253 c rest buf f' Hget) as Hbuf.
  repeat split; [exact Hget | exact Hbuf | lia].
Qed.

(** Every round consumes at least one character of the stream, so any
    number of rounds from the length of the stream on gives the same
    result: the bound in [get_dev_mtd] is never what ends the loop. *)
Lemma scan_mtd_fuel (fuel1 fuel2 : nat) (f : string) :
  (String.length f <= fuel1)%nat ->
  (String.length f <= fuel2)%nat ->
  scan_mtd fuel1 f = scan_mtd fuel2 f.
Proof.
  revert fuel2 f. induction fuel1 as [| fuel1 IH]; intros fuel2 f H1 H2.
  - destruct f; [| cbn in H1; lia]. destruct fuel2; reflexivity.
  - destruct fuel2 as [| fuel2].
    + destruct f; [reflexivity | cbn in H2; lia].
    + cbn [scan_mtd].
      destruct (fgets 255 f) as [[buf f'] |] eqn:Hget; [| reflexivity].
      destruct (fgets_shrinks _ _ _ Hget) as (_ & _ & Hlt).
      cbv zeta. destruct (last_char (cstr buf)); [| reflexivity].
      destruct (negb (a =? newline)%char); [reflexivity |].
      destruct (is_pnor_part (cstr buf)); [reflexivity |].
      apply IH; lia.
Qed.

(** *** The shape of the result *)

Lemma strchr_lt (s : string) (c : ascii) (k : nat) :
  strchr s c = Some k -> (k < String.length s)%nat.
Proof.
  revert k. induction s as [| a s IH]; intros k; cbn [strchr]; [discriminate |].
  destruct (a =? c)%char.
  - intros [= <-]. cbn. lia.
  - destruct (strchr s c) as [j |]; [| discriminate].
    intros [= <-]. specialize (IH j eq_refl). cbn. lia.
Qed.

Lemma substring_0_cons (k : nat) (a : ascii) (s : string) :
  substring 0 (S k) (String a s) = String a (substring 0 k s).
Proof. reflexivity. Qed.

Lemma substring_0_0 (s : string) : substring 0 0 s = EmptyString.
Proof. destruct s; reflexivity. Qed.

(** The text before the first [c] holds no [c]. *)
Lemma strchr_substring_none (s : string) (c : ascii) (k : nat) :
  strchr s c = Some k -> strchr (substring 0 k s) c = None.
Proof.
  revert k. induction s as [| a s IH]; intros k; cbn [strchr]; [discriminate |].
  destruct (a =? c)%char eqn:Hac.
  - intros [= <-]. reflexivity.
  - destruct (strchr s c) as [j |]; [| discriminate].
    intros [= <-]. rewrite substring_0_cons. cbn [strchr].
    now rewrite Hac, (IH j eq_refl).
Qed.

(** A [c] found in the first [k] characters is the first [c] of the
    whole string. *)
Lemma strchr_substring_some (s : string) (c : ascii) (k j : nat) :
  strchr (substring 0 k s) c = Some j ->
  strchr s c = Some j /\ (j < k)%nat.
Proof.
  revert k j. induction s as [| a s IH]; intros k j.
  - destruct k; discriminate.
  - destruct k as [| k]; [rewrite substring_0_0; discriminate |].
    rewrite substring_0_cons. cbn [strchr].
    destruct (a =? c)%char.
    + intros [= <-]. split; [reflexivity | lia].
    + destruct (strchr (substring 0 k s) c) as [i |] eqn:Hi; [| discriminate].
      intros [= <-]. destruct (IH k i Hi) as (Hs & Hlt).
      rewrite Hs. split; [reflexivity | lia].
Qed.

Lemma strchr_cstr (buf : string) (c : ascii) (k : nat) :
  strchr (cstr buf) c = Some k -> strchr buf c = Some k.
Proof.
  revert k. induction buf as [| a buf IH]; intros k; cbn [cstr]; [discriminate |].
  destruct (a =? "000")%char; [discriminate |].
  cbn [strchr]. destruct (a =? c)%char; [auto |].
  destruct (strchr (cstr buf) c) as [j |]; [| discriminate].
  intros [= <-]. now rewrite (IH j eq_refl).
Qed.

Lemma length_cstr (buf : string) :
  (String.length (cstr buf) <= String.length buf)%nat.
Proof.
  induction buf as [| a buf IH]; cbn [cstr]; [lia |].
  destruct (a =? "000")%char; cbn; lia.
Qed.

(** A newline in what [fgets] stored is its last character. *)
Lemma fgets_from_newline_last (room : nat) (f buf f' : string) (k : nat) :
  fgets_from room f = (buf, f') ->
  strchr buf newline = Some k ->
  S k = String.length buf.
Proof.
  revert f buf f' k. induction room as [| room IH]; intros f buf f' k Hget.
  - cbn in Hget. injection Hget as <- _. discriminate.
  - destruct f as [| c rest]; cbn [fgets_from] in Hget.
    + injection Hget as <- _. discriminate.
    + destruct (c =? newline)%char eqn:Hc.
      * injection Hget as <- _. cbn [strchr]. rewrite Hc.
        intros [= <-]. reflexivity.
      * destruct (fgets_from room rest) as [line g] eqn:Hrest.
        injection Hget as <- _. cbn [strchr]. rewrite Hc.
        destruct (strchr line newline) as [j |] eqn:Hj; [| discriminate].
        intros [= <-]. cbn. f_equal. exact (IH _ _ _ _ Hrest Hj).
Qed.

Lemma scan_mtd_name (fuel : nat) (f name : string) :
  scan_mtd fuel f = Result (Some name) ->
  strchr name ":" = None /\ strchr name newline = None.
Proof.
  revert f. induction fuel as [| fuel IH]; intros f; [discriminate |].
  cbn [scan_mtd].
  destruct (fgets 255 f) as [[buf f'] |] eqn:Hget; [| discriminate].
  destruct (fgets_shrinks _ _ _ Hget) as (Hfrom & _ & _).
  cbv zeta. destruct (last_char (cstr buf)); [| discriminate].
  destruct (negb (a =? newline)%char); [discriminate |].
  destruct (is_pnor_part (cstr buf)); [| apply IH].
  destruct (strchr (cstr buf) ":") as [pos |] eqn:Hpos; [| discriminate].
  intros [= <-].
  split; [now apply strchr_substring_none |].
  destruct (strchr (substring 0 pos (cstr buf)) newline) as [j |] eqn:Hj;
    [| reflexivity].
  exfalso.
  destruct (strchr_substring_some _ _ _ _ Hj) as (Hline & Hlt).
  pose proof (strchr_lt _ _ _ Hpos) as Hin.
  pose proof (length_cstr buf) as Hle.
  pose proof (fgets_from_newline_last _ _ _ _ _ Hfrom (strchr_cstr _ _ _ Hline)).
  lia.
Qed.

(** X7.  Whatever the file holds, a path returned by [get_dev_mtd] is
    "/dev/" followed by a name that contains neither a colon nor a
    newline. *)
Theorem get_dev_mtd_path_shape (proc_mtd : option string) (path : string) :
  get_dev_mtd proc_mtd = Result (Some path) ->
  exists name,
    path = "/dev/" ++ name /\
    strchr name ":" = None /\
    strchr name newline = None.
Proof.
  unfold get_dev_mtd. destruct proc_mtd as [f |]; [| discriminate].
  destruct (scan_mtd (String.length f) f) as [[name |] |] eqn:Hscan;
    try discriminate.
  intros [= <-]. exists name. split; [reflexivity |].
  exact (scan_mtd_name _ _ _ Hscan).
Qed.

(** *** Terminators in the file *)






Lemma fgets_from_nul (room : nat) (rest : string) :
  exists line g,
    fgets_from (S room) (String "000" rest) = (String "000" line, g).
Proof.
  cbn [fgets_from]. change ("000" =? newline)%char with false.
  destruct (fgets_from room rest) as [line g]. eauto.
Qed.

Lemma scan_mtd_nul_first (fuel : nat) (rest : string) :
  scan_mtd (S fuel) (String "000" rest) = OutOfBounds.
Proof.
  cbn [scan_mtd]. unfold fgets.
  destruct (fgets_from_nul 253 rest) as (line & g & Hget).
  change (255 - 1)%nat with (S 253). rewrite Hget. reflexivity.
Qed.

(** X9.  A terminator character at the start of a line that is reached
    makes the line read an empty string, and the test of its last
    character, at index [strlen(line) - 1], reads the byte in front of
    the buffer. *)
Theorem get_dev_mtd_reads_before_line (lines : list string) (rest : string) :
  Forall (fun l => complete_line l = true) lines ->
  (forall l, In l lines -> is_pnor_part l = false) ->
  get_dev_mtd (Some (text_of lines ++ String "000" rest)) = OutOfBounds.
Proof.
  intros Hall Hnone.
  assert (Hscan : forall fuel,
             (List.length lines < fuel)%nat ->
             scan_mtd fuel (text_of lines ++ String "000" rest) = OutOfBounds).
  { induction Hall as [| l lines Hl _ IH]; intros fuel Hfuel.
    - destruct fuel as [| fuel]; [lia |].
      cbn [text_of append]. apply scan_mtd_nul_first.
    - destruct fuel as [| fuel]; [lia |].
      cbn [text_of]. rewrite append_assoc_string.
      rewrite (scan_mtd_complete_line fuel l _ Hl).
      rewrite (Hnone l (or_introl eq_refl)).
      apply IH; [| cbn in Hfuel; lia].
      intros l' Hin. apply Hnone. now right. }
  unfold get_dev_mtd. rewrite Hscan; [reflexivity |].
  rewrite length_append_string.
  pose proof (length_text_of lines Hall). cbn. lia.
Qed.

(** ** mboxctl.c: further properties *)

Section Exchange.

Context {hdr : mbox_dbus_h} {D : Type}.
Variable bus : sd_bus D.
Variable strerror : Z -> string.

Ltac step_bus :=
  repeat (cbv beta iota zeta in *;
    cbn [fst snd negb pred daemon stdout stderr calls bus_refs msg_refs
         cmd num_args args set_cmd set_args] in *;
    match goal with
    | H : true = false |- _ => discriminate H
    | H : false = true |- _ => discriminate H
    | H : (_, _) = (_, _) |- _ => inversion H; subst; clear H
    | H : ?e = (_, _) |- context [?e] => rewrite H
    | H : ?e = true |- context [?e] => rewrite H
    | H : ?e = false |- context [?e] => rewrite H
    | H : context [let (_, _) := ?e in _] |- _ => destruct e eqn:?
    | H : context [if ?c <? 0 then _ else _] |- _ => destruct (c <? 0) eqn:?
    | |- context [let (_, _) := ?e in _] => destruct e eqn:?
    | |- context [if ?c <? 0 then _ else _] => destruct (c <? 0) eqn:?
    end).

Lemma post_request_build (c : uint8_t) (a : list uint8_t) (d : D) :
  post_request bus c a d =
    let (rc, d1) := build_request bus c a d in
    if rc <? 0 then (inl rc, d1) else
    let '(rc, n, d2) := sd_bus_call bus c a d1 in
    if rc <? 0 then (inl rc, d2) else (inr n, d2).
Proof.
  unfold post_request, build_request. step_bus; reflexivity.
Qed.

(** X10.  Whatever the bus does, an exchange returns to its caller with
    a code that is 0, negative or [-E_DBUS_INTERNAL] (a positive code of
    an sd-bus call is never passed on); it writes nothing to the
    standard output, leaves the connection alone, has released every
    message it obtained, and has handed the caller's request to
    [sd_bus_call] at most once. *)
Theorem send_dbus_msg_balanced (msg resp : mbox_dbus_msg) (w : world D) :
  exists rc resp' w',
    send_dbus_msg bus strerror msg resp w = (Return (rc, resp'), w') /\
    (rc = 0 \/ rc < 0 \/ rc = - E_DBUS_INTERNAL) /\
    stdout w' = stdout w /\
    bus_refs w' = bus_refs w /\
    msg_refs w' = msg_refs w /\
    (calls w' = calls w \/
     calls w' =
       (calls w ++ [(cmd msg, firstn (num_args msg) (args msg))])%list).
Proof.
  destruct (post_request bus (cmd msg) (firstn (num_args msg) (args msg))
              (daemon w)) as [[rc | n] d'] eqn:Hpost.
  - destruct (send_dbus_msg_post_failed bus strerror msg resp w rc d' Hpost)
      as (Hneg & e & cs & Hrun & Hcs).
    rewrite Hrun. do 3 eexists. split; [reflexivity |].
    cbn [stdout bus_refs msg_refs calls]. repeat split; auto.
  - destruct (read_reply n) as [rc | [st buf]] eqn:Hread.
    + destruct (send_dbus_msg_read_failed bus strerror msg resp w n d' rc
                  Hpost Hread) as (Hneg & resp' & e & Hrun & _).
      rewrite Hrun. do 3 eexists. split; [reflexivity |].
      cbn [stdout bus_refs msg_refs calls]. repeat split; auto.
    + rewrite (send_dbus_msg_received bus strerror msg resp w n d' st buf
                 Hpost Hread).
      destruct (List.length buf <? num_args resp)%nat;
        do 3 eexists; (split; [reflexivity |]);
        cbn [stdout bus_refs msg_refs calls]; repeat split; auto.
Qed.

(** X11.  When one of the three calls that build the request fails, the
    exchange returns the code of that call and nothing has been handed
    to [sd_bus_call]; the response structure is as the caller passed
    it, one line has been added to the error stream, and no message is
    left allocated. *)
Theorem send_dbus_msg_build_failure msg resp w rc d' :
  build_request bus (cmd msg) (firstn (num_args msg) (args msg)) (daemon w)
    = (rc, d') ->
  rc < 0 ->
  exists e,
    send_dbus_msg bus strerror msg resp w =
      (Return (rc, resp),
       mk_world d' (stdout w) (stderr w ++ (e ++ strerror (- rc) ++ nl))
         (calls w) (bus_refs w) (msg_refs w)) /\
    In e ["Failed to init method call: "; "Failed to add cmd to message: ";
          "Failed to add args to message: "].
Proof.
  unfold build_request, send_dbus_msg, send_dbus_msg_body.
  unfold bind, message_new_method_call, message_append, message_append_array,
    bus_call, message_unref, eprintf, ret.
  intros Hbuild Hneg. apply Z.ltb_lt in Hneg.
  step_bus; try congruence;
    eexists; (split; [reflexivity | cbn; tauto]).
Qed.

(** X12.  When the request is built and [sd_bus_call] fails, the
    exchange returns the code of the call; the request has been handed
    to [sd_bus_call] once and is not tried again, the response
    structure is as the caller passed it, and the failure is reported
    on the error stream with the text of the error number. *)
Theorem send_dbus_msg_call_failure msg resp w r d1 rc n d2 :
  build_request bus (cmd msg) (firstn (num_args msg) (args msg)) (daemon w)
    = (r, d1) ->
  0 <= r ->
  sd_bus_call bus (cmd msg) (firstn (num_args msg) (args msg)) d1
    = (rc, n, d2) ->
  rc < 0 ->
  send_dbus_msg bus strerror msg resp w =
    (Return (rc, resp),
     mk_world d2 (stdout w)
       (stderr w ++ ("Failed to post message: " ++ strerror (- rc) ++ nl))
       (calls w ++ [(cmd msg, firstn (num_args msg) (args msg))])%list
       (bus_refs w) (msg_refs w)).
Proof.
  unfold build_request, send_dbus_msg, send_dbus_msg_body.
  unfold bind, message_new_method_call, message_append, message_append_array,
    bus_call, message_unref, eprintf, ret.
  intros Hbuild Hr Hcall Hneg.
  apply Z.ltb_ge in Hr. apply Z.ltb_lt in Hneg.
  step_bus; try congruence; reflexivity.
Qed.

End Exchange.

Section Handlers.

Context {hdr : mbox_dbus_h} {D : Type}.
Variable bus : sd_bus D.
Variable strerror : Z -> string.

Ltac handler_reports Hpost Hread :=
  unfold bind;
  match goal with
  | |- context [send_dbus_msg ?b ?s ?msg ?resp ?w] =>
    rewrite (send_dbus_msg_received b s msg resp w _ _ _ _ Hpost Hread)
  end;
  reflexivity.

(** X13.  When the exchange of Ping, Reset, Suspend or Flash-modified is
    completed, whatever the reply carries besides its status byte, the
    handler prints one line, its label followed by the phrase
    [parse_error] gives for the status, writes nothing to the error
    stream and returns the negated status. *)
Theorem handlers_report_status w n d' st buf :
  read_reply n = inr (st, buf) ->
  let reported (c : Z) (label : string) :=
    (Return (- u8 st),
     mk_world d' (stdout w ++ (label ++ parse_error (u8 st) ++ nl))
       (stderr w) (calls w ++ [(to_u8 c, [])])%list
       (bus_refs w) (msg_refs w)) in
  (post_request bus (to_u8 DBUS_C_PING) [] (daemon w) = (inr n, d') ->
   handle_cmd_ping bus strerror w = reported DBUS_C_PING "Ping: ") /\
  (post_request bus (to_u8 DBUS_C_RESET) [] (daemon w) = (inr n, d') ->
   handle_cmd_reset bus strerror w = reported DBUS_C_RESET "Reset: ") /\
  (post_request bus (to_u8 DBUS_C_SUSPEND) [] (daemon w) = (inr n, d') ->
   handle_cmd_suspend bus strerror w = reported DBUS_C_SUSPEND "Suspend: ") /\
  (post_request bus (to_u8 DBUS_C_MODIFIED) [] (daemon w) = (inr n, d') ->
   handle_cmd_modified bus strerror w
     = reported DBUS_C_MODIFIED "Flash Modified: ").
Proof.
  intros Hread reported. subst reported.
  repeat split; intros Hpost.
  - unfold handle_cmd_ping. handler_reports Hpost Hread.
  - unfold handle_cmd_reset. handler_reports Hpost Hread.
  - unfold handle_cmd_suspend. handler_reports Hpost Hread.
  - unfold handle_cmd_modified. handler_reports Hpost Hread.
Qed.



(** X15.  When the Status exchange is completed with a status other
    than Success, the handler returns the negated status, reports on the
    error stream that the command failed, and prints nothing: the
    payload is not interpreted. *)
Theorem handle_cmd_status_daemon_error w n d' st buf :
  post_request bus (to_u8 DBUS_C_STATUS) [] (daemon w) = (inr n, d') ->
  read_reply n = inr (st, buf) ->
  (1 <= List.length buf)%nat ->
  u8 st <> DBUS_SUCCESS ->
  handle_cmd_status bus strerror w =
    (Return (- u8 st),
     mk_world d' (stdout w) (stderr w ++ ("Status command failed" ++ nl))
       (calls w ++ [(to_u8 DBUS_C_STATUS, [])])%list
       (bus_refs w) (msg_refs w)).
Proof.
  intros Hpost Hread Hlen Hst.
  unfold handle_cmd_status, bind.
  rewrite (send_dbus_msg_received bus strerror
             (set_cmd (to_u8 DBUS_C_STATUS) msg_zero)
             (mk_msg x00 1 (calloc 1)) w n d' st buf Hpost Hread).
  cbn [num_args].
  assert (Hge : (List.length buf <? 1)%nat = false) by now apply Nat.ltb_ge.
  rewrite Hge.
  cbn [Z.ltb Z.compare cmd set_cmd set_args args num_args].
  apply Z.eqb_neq in Hst. rewrite Hst. reflexivity.
Qed.

(** *** Processes *)

(** X16.  When the connection to the system bus fails, the process ends
    with the code of the attempt, whatever options it was given: none of
    them is looked at, nothing is posted or printed, and the error
    stream receives the report of the attempt and of the failed
    initialisation. *)
Theorem main_connection_failure argv0 opts w r0 d0 :
  sd_bus_default_system bus (daemon w) = (r0, d0) ->
  r0 < 0 ->
  main bus strerror argv0 opts w =
    (Return r0,
     mk_world d0 (stdout w)
       ((stderr w ++ ("Failed to connect to the system bus: "
                      ++ strerror (- r0) ++ nl))
        ++ ("Failed to init dbus" ++ nl))
       (calls w) (bus_refs w) (msg_refs w)).
Proof.
  intros Hconn Hneg. apply Z.ltb_lt in Hneg.
  unfold main, init_dbus_dev, bind, bus_default_system, eprintf, ret.
  rewrite Hconn, Hneg.
  cbn [daemon stdout stderr calls bus_refs msg_refs].
  now rewrite Hneg.
Qed.

(** The loop over two runs of options is the loop over the first run
    followed, unless the process has exited, by the loop over the
    second. *)
Lemma parse_cmdline_from_app argv0 opts1 opts2 rc (w : world D) :
  parse_cmdline_from bus strerror argv0 (opts1 ++ opts2)%list rc w =
    match parse_cmdline_from bus strerror argv0 opts1 rc w with
    | (Return rc', w') => parse_cmdline_from bus strerror argv0 opts2 rc' w'
    | (Exit status, w') => (Exit status, w')
    end.
Proof.
  revert rc w. induction opts1 as [| [opt optarg] opts1 IH]; intros rc w.
  - reflexivity.
  - cbn [app parse_cmdline_from]. unfold bind.
    destruct (dispatch bus strerror argv0 opt optarg w) as [[rc' | st] w'];
      [apply IH | reflexivity].
Qed.

(** X17.  The code of a process is that of the last option alone: if
    the options before it are worked through without leaving the
    process, the result is the result of the last option's handler in
    the world they leave, whatever codes they produced; and once the
    process has exited, no later option is looked at. *)
Theorem parse_cmdline_last_option argv0 opts opt optarg (w : world D) :
  match parse_cmdline bus strerror argv0 opts w with
  | (Return _, w') =>
    parse_cmdline bus strerror argv0 (opts ++ [(opt, optarg)])%list w =
      dispatch bus strerror argv0 opt optarg w'
  | (Exit status, w') =>
    parse_cmdline bus strerror argv0 (opts ++ [(opt, optarg)])%list w =
      (Exit status, w')
  end.
Proof.
  unfold parse_cmdline. rewrite parse_cmdline_from_app.
  destruct (parse_cmdline_from bus strerror argv0 opts (-1) w)
    as [[rc | st] w']; [| reflexivity].
  cbn [parse_cmdline_from]. unfold bind, ret.
  destruct (dispatch bus strerror argv0 opt optarg w') as [[rc' | st] w''];
    reflexivity.
Qed.


Ltac handler_posts :=
  unfold bind;
  match goal with
  | |- context [send_dbus_msg ?b ?s ?msg ?resp ?w] =>
    let Hc := fresh "Hc" in
    let Hrun := fresh "Hrun" in
    destruct (send_dbus_msg_frame b s msg resp w)
      as (?rc & ?resp' & ?w' & Hrun & _ & _ & _ & Hc);
    rewrite Hrun;
    repeat match goal with
           | |- context [if ?c then _ else _] => destruct c
           end;
    unfold printf, eprintf, ret; cbn [snd calls];
    (destruct Hc as [Hc | Hc]; rewrite Hc;
     [exists [] | eexists [_]];
     (split; [now rewrite ?app_nil_r | cbn; lia]))
  end.

(** A handler posts at most one request. *)
Lemma dispatch_posts argv0 opt optarg (w : world D) :
  exists sent,
    calls (snd (dispatch bus strerror argv0 opt optarg w))
      = (calls w ++ sent)%list /\
    (List.length sent <=
     match request_shape opt with Some _ => 1 | None => 0 end)%nat.
Proof.
  unfold dispatch, request_shape.
  destruct (opt =? "p")%char; [unfold handle_cmd_ping; handler_posts |].
  destruct (opt =? "s")%char; [unfold handle_cmd_status; handler_posts |].
  destruct ((opt =? "r")%char || (opt =? "f")%char);
    [unfold handle_cmd_reset; handler_posts |].
  destruct (opt =? "u")%char; [unfold handle_cmd_suspend; handler_posts |].
  destruct (opt =? "e")%char eqn:He.
  - apply Ascii.eqb_eq in He. subst opt.
    rewrite handle_cmd_resume_inval. exists []. cbn.
    split; [now rewrite app_nil_r | lia].
  - destruct (opt =? "m")%char; [unfold handle_cmd_modified; handler_posts |].
    destruct (opt =? "v")%char; [| destruct (opt =? "h")%char];
      exists []; cbn; (split; [now rewrite app_nil_r | lia]).
Qed.

(** X19.  A process hands to [sd_bus_call] at most one request for each
    of its options that names Ping, Status, Reset, Point-to-flash,
    Suspend or Flash-modified, and none for any other option: nothing
    is retried and nothing is sent unasked. *)
Theorem main_posts_once_per_command argv0 opts (w : world D) :
  exists sent,
    calls (snd (main bus strerror argv0 opts w)) = (calls w ++ sent)%list /\
    (List.length sent <=
     List.length
       (filter (fun o => match request_shape (fst o) with
                         | Some _ => true
                         | None => false
                         end)
               opts))%nat.
Proof.
  assert (Hloop : forall opts rc (w : world D),
             exists sent,
               calls (snd (parse_cmdline_from bus strerror argv0 opts rc w))
                 = (calls w ++ sent)%list /\
               (List.length sent <=
                List.length
                  (filter
                     (fun o => match request_shape (fst o) with
                               | Some _ => true
                               | None => false
                               end)
                     opts))%nat).
  { clear opts w. induction opts as [| [opt optarg] opts IH]; intros rc w.
    - exists []. cbn. split; [now rewrite app_nil_r | lia].
    - cbn [parse_cmdline_from]. unfold bind.
      destruct (dispatch_posts argv0 opt optarg w) as (s1 & Hc1 & Hl1).
      destruct (dispatch bus strerror argv0 opt optarg w) as [[rc' | st] w'].
      + destruct (IH rc' w') as (s2 & Hc2 & Hl2).
        exists (s1 ++ s2)%list. cbn [snd] in Hc1. rewrite Hc2, Hc1.
        split; [now rewrite app_assoc |].
        rewrite length_app. cbn [filter fst].
        destruct (request_shape opt); cbn [List.length]; lia.
      + exists s1. cbn [snd] in *. split; [exact Hc1 |].
        cbn [filter fst].
        destruct (request_shape opt); cbn [List.length]; lia. }
  destruct (sd_bus_default_system bus (daemon w)) as [r0 d0] eqn:Hconn.
  destruct (Z.ltb_spec r0 0) as [Hneg | Hok].
  - rewrite (main_not_connected bus strerror argv0 opts w r0 d0 Hconn Hneg).
    exists []. cbn. split; [now rewrite app_nil_r | lia].
  - rewrite (main_connected bus strerror argv0 opts w r0 d0 Hconn Hok).
    exact (Hloop opts (-1) (connected d0 w)).
Qed.

(** X20.  A process that connects and is given no option at all
    returns -1 without printing or posting anything, the usage text
    included. *)
Theorem main_no_options argv0 (w : world D) r0 d0 :
  sd_bus_default_system bus (daemon w) = (r0, d0) ->
  0 <= r0 ->
  main bus strerror argv0 [] w = (Return (-1), connected d0 w).
Proof.
  intros Hconn Hok.
  now rewrite (main_connected bus strerror argv0 [] w r0 d0 Hconn Hok).
Qed.

End Handlers.

(** ** The further properties on concrete inputs *)

Lemma u16_round_trip_witness :
  exists ptr',
    put_u16 LittleEndian [x00; x00; x07] 258 = Some ptr' /\
    get_u16 LittleEndian ptr' = Some 258 /\
    skipn 2 ptr' = [x07].
Proof.
  destruct (u16_round_trip LittleEndian [x00; x00; x07] 258)
    as ((ptr' & Hput & Hget & _ & Hrest) & _).
  - cbn. lia.
  - exists ptr'. repeat split; assumption.
Defined.

Lemma u32_round_trip_witness :
  exists ptr',
    put_u32 BigEndian [x00; x00; x00; x00; x07] 16909060 = Some ptr' /\
    get_u32 BigEndian ptr' = Some 16909060 /\
    skipn 4 ptr' = [x07].
Proof.
  destruct (u32_round_trip BigEndian [x00; x00; x00; x00; x07] 16909060)
    as ((ptr' & Hput & Hget & _ & Hrest) & _).
  - cbn. lia.
  - exists ptr'. repeat split; assumption.
Defined.

Lemma u32_then_u16_witness :
  exists ptr',
    put_u32 BigEndian [x00; x00; x00; x00] 16909060 = Some ptr' /\
    get_u16 BigEndian ptr' = Some 258.
Proof.
  apply (u32_then_u16 BigEndian [x00; x00; x00; x00] 16909060).
  cbn. lia.
Defined.

Lemma proc_mtd_lines_complete :
  Forall (fun l => complete_line l = true) proc_mtd_lines.
Proof. repeat constructor. Defined.

Lemma get_dev_mtd_complete_lines_witness :
  get_dev_mtd (Some (text_of proc_mtd_lines)) = Result (Some "/dev/mtd6").
Proof.
  exact (get_dev_mtd_complete_lines proc_mtd_lines proc_mtd_lines_complete).
Defined.

(** The same file cut in the middle of the line that names the
    partition. *)
Lemma get_dev_mtd_unterminated_witness :
  get_dev_mtd (Some (text_of (firstn 2 proc_mtd_lines)
                     ++ "mtd6: 04000000 00010000 PNOR"))
    = Result None.
Proof.
  apply (get_dev_mtd_unterminated (firstn 2 proc_mtd_lines)
           "mtd6: 04000000 00010000 PNOR").
  - repeat constructor.
  - intros l [<- | [<- | []]]; reflexivity.
  - reflexivity.
Defined.

Lemma get_dev_mtd_path_shape_witness :
  exists name,
    "/dev/mtd6" = "/dev/" ++ name /\
    strchr name ":" = None /\
    strchr name newline = None.
Proof.
  apply (get_dev_mtd_path_shape (Some (text_of proc_mtd_lines)) "/dev/mtd6").
  reflexivity.
Defined.


Lemma get_dev_mtd_reads_before_line_witness :
  get_dev_mtd (Some (text_of (firstn 2 proc_mtd_lines)
                     ++ String "000" ("mtd6: 04000000 00010000 PNOR" ++ nl)))
    = OutOfBounds.
Proof.
  apply (get_dev_mtd_reads_before_line (firstn 2 proc_mtd_lines)).
  - repeat constructor.
  - intros l [<- | [<- | []]]; reflexivity.
Defined.

(** A Ping whose command byte cannot be added to the request. *)
Lemma send_dbus_msg_build_failure_witness :
  exists e,
    send_dbus_msg (hdr := mboxd_header) exhausted_bus strerror_stub
        (mk_msg x00 0 []) msg_zero world0
      = (Return (-12, msg_zero),
         mk_world tt "" (e ++ "error" ++ nl) [] 0 0).
Proof.
  destruct (send_dbus_msg_build_failure (hdr := mboxd_header)
              exhausted_bus strerror_stub (mk_msg x00 0 []) msg_zero world0
              (-12) tt) as (e & Hrun & _).
  - reflexivity.
  - lia.
  - exists e. exact Hrun.
Defined.

(** A Ping whose call is refused. *)
Lemma send_dbus_msg_call_failure_witness :
  send_dbus_msg (hdr := mboxd_header) refusing_bus strerror_stub
      (mk_msg x00 0 []) msg_zero world0
    = (Return (-111, msg_zero),
       mk_world tt "" ("Failed to post message: " ++ "error" ++ nl)
         [(x00, [])] 0 0).
Proof.
  apply (send_dbus_msg_call_failure (hdr := mboxd_header)
           refusing_bus strerror_stub (mk_msg x00 0 []) msg_zero world0
           0 tt (-111) (reply_of x00 []) tt).
  - reflexivity.
  - lia.
  - reflexivity.
  - lia.
Defined.

(** A Reset answered with HardwareError and three stray bytes. *)
Lemma handlers_report_status_witness :
  handle_cmd_reset (hdr := mboxd_header)
      (scripted_bus 0 (reply_of x04 [x01; x02; x03])) strerror_stub world0
    = (Return (-4),
       mk_world tt ("Reset: " ++ "Failed - BMC Hardware Error" ++ nl) ""
         [(x02, [])] 0 0).
Proof.
  destruct (handlers_report_status (hdr := mboxd_header)
              (scripted_bus 0 (reply_of x04 [x01; x02; x03])) strerror_stub
              world0 (reply_of x04 [x01; x02; x03]) tt x04 [x01; x02; x03])
    as (_ & Hreset & _).
  - reflexivity.
  - apply Hreset. reflexivity.
Defined.


(** A Status answered with RejectedByDaemon. *)
Lemma handle_cmd_status_daemon_error_witness :
  handle_cmd_status (hdr := mboxd_header)
      (scripted_bus 0 (reply_of x03 [x00])) strerror_stub world0
    = (Return (-3),
       mk_world tt "" ("Status command failed" ++ nl) [(x01, [])] 0 0).
Proof.
  apply (handle_cmd_status_daemon_error (hdr := mboxd_header)
           (scripted_bus 0 (reply_of x03 [x00])) strerror_stub world0
           (reply_of x03 [x00]) tt x03 [x00]).
  - reflexivity.
  - reflexivity.
  - cbn. lia.
  - cbn. discriminate.
Defined.

(** Ping and Status asked of a bus that cannot be reached. *)
Lemma main_connection_failure_witness :
  main (hdr := mboxd_header)
      (scripted_bus (-111) (reply_of x00 [x00])) strerror_stub "mboxctl"
      [("p"%char, None); ("s"%char, None)] world0
    = (Return (-111),
       mk_world tt ""
         (("Failed to connect to the system bus: " ++ "error" ++ nl)
          ++ ("Failed to init dbus" ++ nl))
         [] 0 0).
Proof.
  apply (main_connection_failure (hdr := mboxd_header)
           (scripted_bus (-111) (reply_of x00 [x00])) strerror_stub "mboxctl"
           [("p"%char, None); ("s"%char, None)] world0 (-111) tt).
  - reflexivity.
  - lia.
Defined.


Lemma main_no_options_witness :
  main (hdr := mboxd_header)
      (scripted_bus 0 (reply_of x00 [])) strerror_stub "mboxctl" [] world0
    = (Return (-1), mk_world tt "" "" [] 1 0).
Proof.
  apply (main_no_options (hdr := mboxd_header)
           (scripted_bus 0 (reply_of x00 [])) strerror_stub "mboxctl"
           world0 0 tt).
  - reflexivity.
  - lia.
Defined.
